(** * pose_extractor.py: a shallow embedding and its properties

    The module wraps a third-party pose model (MediaPipe), an image codec
    (OpenCV) and a web framework (Flask).  None of those is part of the
    source file; they are taken as parameters ([Libs] below).  What is
    embedded here is the module's own code: the keypoint name table, the two
    extraction methods, the visualizer, the three POST handlers and the
    command line entry point. *)

From Stdlib Require Import ZArith Ascii DecimalString DecimalPos DecimalZ
  Floats.PrimFloat.
From stdpp Require Import gmap strings list fin_maps.

Set Warnings "-register-all".
Local Open Scope string_scope.
Local Open Scope Z_scope.

(** ** Python values *)

(** [str(i)] and the [{i}] of an f-string for an [int]: decimal digits,
    with a leading minus sign below zero. *)
Definition str_of_int (i : Z) : string := NilZero.string_of_int (Z.to_int i).

(** Python exceptions.  Only the text [str(e)] is ever observed by the
    module.  Every exception of the model is an instance of [Exception]
    (what [except Exception] catches); [KeyboardInterrupt] and [SystemExit],
    which are delivered from outside the code, are not modelled. *)
Record Exception := mkExc { exc_class : string; exc_str : string }.

Definition ValueError (msg : string) : Exception := mkExc "ValueError" msg.
Definition IndexError (msg : string) : Exception := mkExc "IndexError" msg.
Definition TypeError (msg : string) : Exception := mkExc "TypeError" msg.
Definition OSError (msg : string) : Exception := mkExc "OSError" msg.

(** The outcome of an expression that may raise. *)
Inductive Exc (A : Type) : Type :=
| Ret (a : A)
| Raise (e : Exception).
Arguments Ret {A} a.
Arguments Raise {A} e.

(** ** The keypoint name table (lines 179-192) *)

Definition keypoint_names : list string :=
  [ "NOSE"; "LEFT_EYE_INNER"; "LEFT_EYE"; "LEFT_EYE_OUTER";
    "RIGHT_EYE_INNER"; "RIGHT_EYE"; "RIGHT_EYE_OUTER";
    "LEFT_EAR"; "RIGHT_EAR"; "MOUTH_LEFT"; "MOUTH_RIGHT";
    "LEFT_SHOULDER"; "RIGHT_SHOULDER"; "LEFT_ELBOW"; "RIGHT_ELBOW";
    "LEFT_WRIST"; "RIGHT_WRIST"; "LEFT_PINKY"; "RIGHT_PINKY";
    "LEFT_INDEX"; "RIGHT_INDEX"; "LEFT_THUMB"; "RIGHT_THUMB";
    "LEFT_HIP"; "RIGHT_HIP"; "LEFT_KNEE"; "RIGHT_KNEE";
    "LEFT_ANKLE"; "RIGHT_ANKLE"; "LEFT_HEEL"; "RIGHT_HEEL";
    "LEFT_FOOT_INDEX"; "RIGHT_FOOT_INDEX" ]%list.

(** [l[i]] on a Python list: an index below zero counts from the end, and an
    index outside [-len l .. len l - 1] raises [IndexError]. *)
Definition py_index {A} (l : list A) (i : Z) : Exc A :=
  let j := if i <? 0 then i + Z.of_nat (length l) else i in
  if j <? 0 then Raise (IndexError "list index out of range")
  else match l !! Z.to_nat j with
       | Some x => Ret x
       | None => Raise (IndexError "list index out of range")
       end.

(** [keypoint_names[idx] if idx < len(keypoint_names) else f"UNKNOWN_{idx}"] *)
Definition _get_keypoint_name (idx : Z) : Exc string :=
  if idx <? Z.of_nat (length keypoint_names)
  then py_index keypoint_names idx
  else Ret ("UNKNOWN_" +:+ str_of_int idx).

(** Nested dictionaries, as the module builds them and [jsonify] sends them. *)
Inductive PyVal : Type :=
| VNone
| VBool (b : bool)
| VInt (i : Z)
| VFloat (f : float)
| VStr (s : string)
| VList (l : list PyVal)
| VDict (d : gmap string PyVal).

(** [x in v] for a string [x]: key membership on a dict, element membership
    on a list, substring test on a string, [TypeError] on anything else. *)
Fixpoint is_prefix (p s : string) : bool :=
  match p, s with
  | EmptyString, _ => true
  | String a p', String b s' => if Ascii.eqb a b then is_prefix p' s' else false
  | String _ _, EmptyString => false
  end.

Fixpoint is_substring (p s : string) : bool :=
  is_prefix p s ||
  match s with
  | EmptyString => false
  | String _ s' => is_substring p s'
  end.

Definition type_name (v : PyVal) : string :=
  match v with
  | VNone => "NoneType"
  | VBool _ => "bool"
  | VInt _ => "int"
  | VFloat _ => "float"
  | VStr _ => "str"
  | VList _ => "list"
  | VDict _ => "dict"
  end.

Definition is_VStr (x : string) (v : PyVal) : bool :=
  match v with
  | VStr s => String.eqb s x
  | _ => false
  end.

Definition py_in (x : string) (v : PyVal) : Exc bool :=
  match v with
  | VDict d => Ret (bool_decide (is_Some (d !! x)))
  | VList l => Ret (existsb (is_VStr x) l)
  | VStr s => Ret (is_substring x s)
  | _ => Raise (TypeError ("argument of type '" +:+ type_name v +:+ "' is not iterable"))
  end.

(** [v[k]] for a string key [k]. *)
Definition py_getitem (v : PyVal) (k : string) : Exc PyVal :=
  match v with
  | VDict d => match d !! k with
               | Some x => Ret x
               | None => Raise (mkExc "KeyError" ("'" +:+ k +:+ "'"))
               end
  | VList _ => Raise (TypeError "list indices must be integers or slices, not str")
  | VStr _ => Raise (TypeError "string indices must be integers")
  | _ => Raise (TypeError ("'" +:+ type_name v +:+ "' object is not subscriptable"))
  end.

(** [s.split(',')]: the pieces between commas, in order; never empty. *)
Fixpoint split_comma (s : string) : list string :=
  match s with
  | EmptyString => [EmptyString]
  | String c r =>
      if Ascii.eqb c ","%char then EmptyString :: split_comma r
      else match split_comma r with
           | h :: t => String c h :: t
           | [] => [String c EmptyString]
           end
  end.

(** ** The world: files, clock, standard output *)

Record World := mkWorld {
  fs : gmap string (list Byte.byte);   (* path -> file contents *)
  reads : nat;                         (* clock readings taken so far *)
  stdout : list string                 (* lines printed, oldest first *)
}.

Definition set_fs (f : gmap string (list Byte.byte)) (w : World) : World :=
  mkWorld f (reads w) (stdout w).

(** Statements: a world transformer that returns or raises. *)
Definition M (A : Type) : Type := World -> Exc A * World.

Definition ret {A} (a : A) : M A := fun w => (Ret a, w).
Definition raise {A} (e : Exception) : M A := fun w => (Raise e, w).
Definition bind {A B} (m : M A) (k : A -> M B) : M B :=
  fun w => match m w with
           | (Ret a, w') => k a w'
           | (Raise e, w') => (Raise e, w')
           end.
Definition lift {A} (r : Exc A) : M A := fun w => (r, w).

(** [try: body  except Exception as e: handler e] *)
Definition try_except {A} (body : M A) (handler : Exception -> M A) : M A :=
  fun w => match body w with
           | (Ret a, w') => (Ret a, w')
           | (Raise e, w') => handler e w'
           end.

Declare Scope py_scope.
Delimit Scope py_scope with py.
Notation "x <- m ;; k" := (bind m (fun x => k))
  (at level 100, m at next level, right associativity) : py_scope.
Notation "m ;;; k" := (bind m (fun _ => k))
  (at level 100, right associativity) : py_scope.
Local Open Scope py_scope.

Definition print (line : string) : M unit :=
  fun w => (Ret tt, mkWorld (fs w) (reads w) (stdout w ++ [line])).

(** [os.path.exists], [os.remove], [open(p, 'rb').read()] *)
Definition os_path_exists (p : string) : M bool :=
  fun w => (Ret (bool_decide (is_Some (fs w !! p))), w).

Definition FileNotFoundError (p : string) : Exception :=
  mkExc "FileNotFoundError" ("[Errno 2] No such file or directory: '" +:+ p +:+ "'").

Definition os_remove (p : string) : M unit :=
  fun w => match fs w !! p with
           | Some _ => (Ret tt, set_fs (delete p (fs w)) w)
           | None => (Raise (FileNotFoundError p), w)
           end.

Definition read_binary (p : string) : M (list Byte.byte) :=
  fun w => match fs w !! p with
           | Some bs => (Ret bs, w)
           | None => (Raise (FileNotFoundError p), w)
           end.

(** ** The libraries the module calls *)

(** A decoded image: a numpy array of shape (height, width, channels). *)
Record Image := mkImage {
  img_height : Z;
  img_width : Z;
  img_channels : Z;
  img_data : list Byte.byte
}.

(** One landmark of the pose model. *)
Record Landmark := mkLandmark {
  lm_x : float;
  lm_y : float;
  lm_z : float;
  lm_visibility : float
}.

(** OpenCV, MediaPipe, base64, datetime, json and the operating system, as
    far as the module uses them.  Each may fail where the library can. *)
Record Libs := mkLibs {
  (* cv2.imread on a file holding these bytes; None when it is no image *)
  cv2_imread_data : list Byte.byte -> Exc (option Image);
  (* cv2.imdecode(np.frombuffer(bytes, np.uint8), cv2.IMREAD_COLOR) *)
  cv2_imdecode : list Byte.byte -> Exc (option Image);
  (* cv2.cvtColor(image, cv2.COLOR_BGR2RGB) on an image *)
  cv2_cvtColor : Image -> Exc Image;
  (* the encoder behind cv2.imwrite(path, image), chosen by the path *)
  cv2_imencode : string -> Image -> Exc (list Byte.byte);
  (* self.pose.process(image_rgb).pose_landmarks: None, or the landmark list *)
  pose_process : Image -> Exc (option (list Landmark));
  (* self.mp_drawing.draw_landmarks(image, landmarks, POSE_CONNECTIONS) *)
  draw_landmarks : Image -> list Landmark -> Exc Image;
  (* base64.b64decode on a str, b64encode(...).decode('utf-8') *)
  b64decode : string -> Exc (list Byte.byte);
  b64encode : list Byte.byte -> string;
  (* datetime.now() at its n-th call, and the two renderings of an instant *)
  clock : nat -> Z;
  isoformat : Z -> string;
  strftime : Z -> string;              (* '%Y%m%d_%H%M%S' *)
  (* whether the operating system lets a file be created or overwritten *)
  creatable : string -> bool;
  (* a write that fails: the error it raises, and what it leaves at the
     path when it fails after the file was opened (None: nothing) *)
  write_error : string -> Exception;
  write_residue : string -> list Byte.byte -> option (list Byte.byte);
  (* the error of cv2.cvtColor(None, ...): OpenCV refuses an empty source *)
  cv2_cvtColor_none : Exception;
  (* json.dumps(value, indent=2) *)
  json_dumps : gmap string PyVal -> string;
  (* os.path.splitext(os.path.basename(path))[0] *)
  path_stem : string -> string
}.

(** An uploaded file (werkzeug FileStorage). *)
Record FileStorage := mkFile {
  filename : string;
  content : list Byte.byte
}.

(** A Flask request: the uploaded files with their field names, in the
    order sent, and what evaluating [request.json] gives (the parsed body;
    [None] or an error when the body is no JSON). *)
Record Request := mkRequest {
  files : list (string * FileStorage);
  json : Exc PyVal
}.

(** A Flask response: [jsonify(body), status]. *)
Record Response := mkResponse {
  status : Z;
  body : gmap string PyVal
}.

Definition jsonify (d : gmap string PyVal) : Response := mkResponse 200 d.
Definition jsonify_status (d : gmap string PyVal) (code : Z) : Response :=
  mkResponse code d.

(** ['name' in request.files], [request.files['name']] (the first file of
    that field) and [request.files.getlist('name')]. *)
Definition files_getlist (name : string) (fl : list (string * FileStorage))
  : list FileStorage :=
  snd <$> filter (fun p => p.1 = name) fl.

Definition files_contains (name : string) (fl : list (string * FileStorage)) : bool :=
  bool_decide (files_getlist name fl ≠ []).

Definition files_get (name : string) (fl : list (string * FileStorage))
  : Exc FileStorage :=
  match files_getlist name fl with
  | f :: _ => Ret f
  | [] => Raise (mkExc "BadRequestKeyError" "400 Bad Request")
  end.

(** Command line arguments after [parser.parse_args()]. *)
Inductive Mode := api | cli.

Record Args := mkArgs {
  arg_mode : Mode;
  arg_image : option string;
  arg_output : option string;
  arg_visualize : bool;
  arg_port : Z;
  arg_host : string
}.

(** Python truth of an optional string: [None] and [''] are false. *)
Definition truthy (o : option string) : bool :=
  match o with
  | Some s => negb (String.eqb s "")
  | None => false
  end.

Section Embedding.

Variable L : Libs.
(** [app.run(host, port, debug=False)]: the server loop of Flask. *)
Variable app_run : string -> Z -> M unit.

Definition datetime_now : M Z :=
  fun w => (Ret (clock L (reads w)), mkWorld (fs w) (S (reads w)) (stdout w)).

(** The world after a write to [p] failed: the file may have been opened,
    and then holds what was written before the failure. *)
Definition failed_write (p : string) (bs : list Byte.byte) (w : World) : World :=
  match write_residue L p bs with
  | Some part => set_fs (<[p := part]> (fs w)) w
  | None => w
  end.

(** Creating or overwriting a file: [file.save(p)], [open(p, 'w')]. *)
Definition write_file (p : string) (bs : list Byte.byte) : M unit :=
  fun w => if creatable L p
           then (Ret tt, set_fs (<[p := bs]> (fs w)) w)
           else (Raise (write_error L p), failed_write p bs w).

Definition save (file : FileStorage) (dst : string) : M unit :=
  write_file dst (content file).

Definition cv2_imread (p : string) : M (option Image) :=
  fun w => match fs w !! p with
           | Some bs => (cv2_imread_data L bs, w)
           | None => (Ret None, w)
           end.

(** [cv2.imwrite]: reports a file it cannot write by returning False. *)
Definition cv2_imwrite (p : string) (image : Image) : M bool :=
  bs <- lift (cv2_imencode L p image) ;;
  fun w => if creatable L p
           then (Ret true, set_fs (<[p := bs]> (fs w)) w)
           else (Ret false, w).

(** *** class PoseExtractor *)

(** The body of [for idx, landmark in enumerate(...)] (lines 64-73 and
    123-132): one keypoint dictionary appended per landmark. *)
Fixpoint keypoints_loop (idx : nat) (landmarks : list Landmark)
    (keypoints : list PyVal) : Exc (list PyVal) :=
  match landmarks with
  | [] => Ret keypoints
  | landmark :: rest =>
      match _get_keypoint_name (Z.of_nat idx) with
      | Raise e => Raise e
      | Ret name =>
          let keypoint : gmap string PyVal :=
            list_to_map [ ("id", VInt (Z.of_nat idx));
                          ("name", VStr name);
                          ("x", VFloat (lm_x landmark));
                          ("y", VFloat (lm_y landmark));
                          ("z", VFloat (lm_z landmark));
                          ("visibility", VFloat (lm_visibility landmark)) ] in
          keypoints_loop (S idx) rest (keypoints ++ [VDict keypoint])%list
      end
  end.

(** Lines 43-75, and again 103-134 ("same logic as above"): from the decoded
    image to the result dictionary.  A landmark message is always true in
    Python, so [if results.pose_landmarks] tests for [None], as
    [pose_detected] does. *)
Definition keypoints_data_of (image : Image) : M (gmap string PyVal) :=
  image_rgb <- lift (cv2_cvtColor L image) ;;
  results <- lift (pose_process L image_rgb) ;;
  now <- datetime_now ;;
  let keypoints_data : gmap string PyVal :=
    list_to_map [ ("success", VBool true);
                  ("timestamp", VStr (isoformat L now));
                  ("image_info", VDict (list_to_map
                      [ ("width", VInt (img_width image));
                        ("height", VInt (img_height image));
                        ("channels", VInt (img_channels image)) ]));
                  ("keypoints", VList []);
                  ("pose_detected", VBool (bool_decide (is_Some results))) ] in
  match results with
  | Some landmarks =>
      keypoints <- lift (keypoints_loop 0 landmarks []) ;;
      ret (<["keypoints" := VList keypoints]> keypoints_data)
  | None => ret keypoints_data
  end.

(** The [except Exception as e] branch of both methods. *)
Definition error_result (e : Exception) : M (gmap string PyVal) :=
  now <- datetime_now ;;
  ret (list_to_map [ ("success", VBool false);
                     ("error", VStr (exc_str e));
                     ("timestamp", VStr (isoformat L now)) ]).

(** The [try] block of [extract_keypoints] (lines 38-75). *)
Definition extract_keypoints_try (image_path : string) : M (gmap string PyVal) :=
  image <- cv2_imread image_path ;;
  match image with
  | None => raise (ValueError ("Could not read image from " +:+ image_path))
  | Some image => keypoints_data_of image
  end.

Definition extract_keypoints (image_path : string) : M (gmap string PyVal) :=
  try_except (extract_keypoints_try image_path) error_result.

Definition AttributeError (v : PyVal) (attr : string) : Exception :=
  mkExc "AttributeError"
    ("'" +:+ type_name v +:+ "' object has no attribute '" +:+ attr +:+ "'").

(** [base64_image.split(',')[1] if ',' in base64_image else base64_image],
    handed to [base64.b64decode].  The argument comes from a JSON body, so
    it need not be a string; anything else fails in one of the two calls. *)
Definition payload (base64_image : PyVal) : Exc string :=
  match py_in "," base64_image with
  | Raise e => Raise e
  | Ret true =>
      match base64_image with
      | VStr s => py_index (split_comma s) 1
      | v => Raise (AttributeError v "split")
      end
  | Ret false =>
      match base64_image with
      | VStr s => Ret s
      | v => Raise (TypeError ("argument should be a bytes-like object or ASCII string, not '"
                                 +:+ type_name v +:+ "'"))
      end
  end.

(** The [try] block of [extract_keypoints_from_base64] (lines 95-134). *)
Definition extract_keypoints_from_base64_try (base64_image : PyVal)
  : M (gmap string PyVal) :=
  data <- lift (payload base64_image) ;;
  image_data <- lift (b64decode L data) ;;
  image <- lift (cv2_imdecode L image_data) ;;
  match image with
  | None => raise (ValueError "Could not decode base64 image")
  | Some image => keypoints_data_of image
  end.

Definition extract_keypoints_from_base64 (base64_image : PyVal)
  : M (gmap string PyVal) :=
  try_except (extract_keypoints_from_base64_try base64_image) error_result.

Definition visualize_pose (image_path : string) (output_path : option string)
  : M string :=
  try_except
    (image <- cv2_imread image_path ;;
     match image with
     | None => raise (cv2_cvtColor_none L)    (* cv2.cvtColor(None, ...) *)
     | Some image0 =>
         image_rgb <- lift (cv2_cvtColor L image0) ;;
         results <- lift (pose_process L image_rgb) ;;
         image <- match results with
                  | Some landmarks => lift (draw_landmarks L image0 landmarks)
                  | None => ret image0
                  end ;;
         output_path <-
           (if truthy output_path
            then ret (default "" output_path)
            else
              let base_name := path_stem L image_path in
              now <- datetime_now ;;
              ret ("pose_visualization_" +:+ base_name +:+ "_"
                     +:+ strftime L now +:+ ".jpg")) ;;
         cv2_imwrite output_path image ;;;
         ret output_path
     end)
    (fun e => raise (mkExc "Exception" ("Visualization failed: " +:+ exc_str e))).

(** *** The Flask handlers *)

Definition temp_name (prefix : string) (now : Z) (file : FileStorage) : string :=
  prefix +:+ strftime L now +:+ "_" +:+ filename file.

(** The [except Exception as e] branch of the three handlers. *)
Definition error_response (e : Exception) : M Response :=
  now <- datetime_now ;;
  ret (jsonify_status
         (list_to_map [ ("success", VBool false);
                        ("error", VStr (exc_str e));
                        ("timestamp", VStr (isoformat L now)) ])
         500).

(** [GET /health] (lines 198-205). *)
Definition health_check : M Response :=
  now <- datetime_now ;;
  ret (jsonify (list_to_map
         [ ("status", VStr "healthy");
           ("service", VStr "MediaPipe Pose Extractor");
           ("timestamp", VStr (isoformat L now)) ])).

Definition extract_pose_api (request : Request) : M Response :=
  try_except
    (if files_contains "image" (files request) then
       file <- lift (files_get "image" (files request)) ;;
       if String.eqb (filename file) "" then
         ret (jsonify_status {[ "error" := VStr "No file selected" ]} 400)
       else
         now <- datetime_now ;;
         let temp_path := temp_name "temp_" now file in
         save file temp_path ;;;
         result <- extract_keypoints temp_path ;;
         os_remove temp_path ;;;
         ret (jsonify result)
     else
       body <- lift (json request) ;;
       has <- lift (py_in "base64_image" body) ;;
       if has : bool then
         base64_image <- lift (py_getitem body "base64_image") ;;
         result <- extract_keypoints_from_base64 base64_image ;;
         ret (jsonify result)
       else
         ret (jsonify_status
                {[ "error" :=
                     VStr "No image provided. Use 'image' file or 'base64_image' in JSON" ]}
                400))
    error_response.

Definition visualize_pose_api (request : Request) : M Response :=
  try_except
    (if negb (files_contains "image" (files request)) then
       ret (jsonify_status {[ "error" := VStr "No image file provided" ]} 400)
     else
       file <- lift (files_get "image" (files request)) ;;
       if String.eqb (filename file) "" then
         ret (jsonify_status {[ "error" := VStr "No file selected" ]} 400)
       else
         now <- datetime_now ;;
         let temp_input := temp_name "temp_input_" now file in
         save file temp_input ;;;
         output_path <- visualize_pose temp_input None ;;
         img <- read_binary output_path ;;
         let img_base64 := b64encode L img in
         os_remove temp_input ;;;
         os_remove output_path ;;;
         now <- datetime_now ;;
         ret (jsonify (list_to_map
                [ ("success", VBool true);
                  ("visualization", VStr ("data:image/jpeg;base64," +:+ img_base64));
                  ("timestamp", VStr (isoformat L now)) ])))
    error_response.

(** The [for file in files] loop of the batch handler (lines 301-315). *)
Fixpoint batch_loop (fl : list FileStorage) (results : list PyVal)
  : M (list PyVal) :=
  match fl with
  | [] => ret results
  | file :: rest =>
      if String.eqb (filename file) "" then batch_loop rest results
      else
        now <- datetime_now ;;
        let temp_path := temp_name "temp_" now file in
        save file temp_path ;;;
        result <- extract_keypoints temp_path ;;
        let result := <["filename" := VStr (filename file)]> result in
        let results := (results ++ [VDict result])%list in
        os_remove temp_path ;;;
        batch_loop rest results
  end.

Definition batch_extract_api (request : Request) : M Response :=
  try_except
    (if negb (files_contains "images" (files request)) then
       ret (jsonify_status {[ "error" := VStr "No images provided" ]} 400)
     else
       let fl := files_getlist "images" (files request) in
       results <- batch_loop fl [] ;;
       now <- datetime_now ;;
       ret (jsonify (list_to_map
              [ ("success", VBool true);
                ("total_processed", VInt (Z.of_nat (length results)));
                ("results", VList results);
                ("timestamp", VStr (isoformat L now)) ])))
    error_response.

(** *** The command line *)

(** [main()] after argument parsing.  [PoseExtractor()] only builds the
    library objects that [Libs] stands for. *)
Definition main (args : Args) : M unit :=
  match arg_mode args with
  | api =>
      print ("Starting MediaPipe Pose API server on " +:+ arg_host args +:+ ":"
               +:+ str_of_int (arg_port args)) ;;;
      print "Endpoints:" ;;;
      print "  GET  /health - Health check" ;;;
      print "  POST /extract-pose - Extract keypoints from image" ;;;
      print "  POST /visualize-pose - Create pose visualization" ;;;
      print "  POST /batch-extract - Batch process multiple images" ;;;
      app_run (arg_host args) (arg_port args)
  | cli =>
      if negb (truthy (arg_image args)) then
        print "Error: --image is required for CLI mode"
      else
        let image := default "" (arg_image args) in
        found <- os_path_exists image ;;
        if negb found then
          print ("Error: Image file not found: " +:+ image)
        else
          print ("Processing image: " +:+ image) ;;;
          result <- extract_keypoints image ;;
          (if truthy (arg_output args) then
             let output := default "" (arg_output args) in
             write_file output (String.list_byte_of_string (json_dumps L result)) ;;;
             print ("Results saved to: " +:+ output)
           else
             print (json_dumps L result)) ;;;
          if arg_visualize args then
            viz_path <- visualize_pose image None ;;
            print ("Visualization saved to: " +:+ viz_path)
          else ret tt
  end.

End Embedding.

(** ** A small instance of the libraries

    Used to run the module on concrete requests.  A file is an image when
    it starts with the byte [I]; a person is found in it when the next byte
    is [P]; file names with a slash cannot be created. *)

Definition toy_image (bs : list Byte.byte) : option Image :=
  match bs with
  | Byte.x49 :: _ => Some (mkImage 2 3 3 bs)
  | _ => None
  end.

Definition toy_landmark : Landmark := mkLandmark 0.5 0.25 0 1.

Definition toy_pose (image : Image) : option (list Landmark) :=
  match img_data image with
  | _ :: Byte.x50 :: _ => Some (replicate 33 toy_landmark)
  | _ => None
  end.

Definition toy_libs : Libs := {|
  cv2_imread_data := fun bs => Ret (toy_image bs);
  cv2_imdecode := fun bs => Ret (toy_image bs);
  cv2_cvtColor := fun i => Ret i;
  cv2_imencode := fun _ i => Ret (img_data i);
  pose_process := fun i => Ret (toy_pose i);
  draw_landmarks := fun i _ => Ret i;
  b64decode := fun s => Ret (String.list_byte_of_string s);
  b64encode := String.string_of_list_byte;
  clock := fun n => Z.of_nat n;
  isoformat := str_of_int;
  strftime := fun _ => "20240101_120000";
  creatable := fun p => negb (is_substring "/" p);
  write_error := fun p => OSError ("cannot create '" +:+ p +:+ "'");
  write_residue := fun _ _ => None;
  cv2_cvtColor_none :=
    mkExc "cv2.error" "(-215:Assertion failed) !_src.empty() in function 'cvtColor'";
  json_dumps := fun d => match d !! "success" with
                         | Some (VBool true) => "{success}"
                         | _ => "{failure}"
                         end;
  path_stem := fun p => p
|}.

Definition toy_run : string -> Z -> M unit := fun _ _ => ret tt.

Definition world0 : World := mkWorld ∅ 0 [].

(** * Properties *)

(** ** The embedding on small inputs *)

Example name_0 : _get_keypoint_name 0 = Ret "NOSE".
Proof. reflexivity. Qed.
Example name_32 : _get_keypoint_name 32 = Ret "RIGHT_FOOT_INDEX".
Proof. reflexivity. Qed.
Example name_33 : _get_keypoint_name 33 = Ret "UNKNOWN_33".
Proof. reflexivity. Qed.
Example name_neg1 : _get_keypoint_name (-1) = Ret "RIGHT_FOOT_INDEX".
Proof. reflexivity. Qed.
Example name_neg34 :
  _get_keypoint_name (-34) = Raise (IndexError "list index out of range").
Proof. reflexivity. Qed.

Example split_two : split_comma "a,b" = ["a"; "b"].
Proof. reflexivity. Qed.
Example split_none : split_comma "ab" = ["ab"].
Proof. reflexivity. Qed.
Example split_edge : split_comma ",a,,b," = [""; "a"; ""; "b"; ""].
Proof. reflexivity. Qed.

(** ** The name table *)

(** The table as the specification lists it (section 6). *)
Definition spec_keypoint_table : list string :=
  [ "NOSE"; "LEFT_EYE_INNER"; "LEFT_EYE"; "LEFT_EYE_OUTER"; "RIGHT_EYE_INNER";
    "RIGHT_EYE"; "RIGHT_EYE_OUTER"; "LEFT_EAR"; "RIGHT_EAR"; "MOUTH_LEFT";
    "MOUTH_RIGHT"; "LEFT_SHOULDER"; "RIGHT_SHOULDER"; "LEFT_ELBOW";
    "RIGHT_ELBOW"; "LEFT_WRIST"; "RIGHT_WRIST"; "LEFT_PINKY"; "RIGHT_PINKY";
    "LEFT_INDEX"; "RIGHT_INDEX"; "LEFT_THUMB"; "RIGHT_THUMB"; "LEFT_HIP";
    "RIGHT_HIP"; "LEFT_KNEE"; "RIGHT_KNEE"; "LEFT_ANKLE"; "RIGHT_ANKLE";
    "LEFT_HEEL"; "RIGHT_HEEL"; "LEFT_FOOT_INDEX"; "RIGHT_FOOT_INDEX" ]%list.

Lemma keypoint_names_length : length keypoint_names = 33%nat.
Proof. reflexivity. Qed.

Lemma get_name_in_table (n : nat) (s : string) :
  spec_keypoint_table !! n = Some s ->
  _get_keypoint_name (Z.of_nat n) = Ret s.
Proof.
  intros H.
  assert (Hn : (n < 33)%nat) by (apply lookup_lt_Some in H; exact H).
  do 33 (destruct n as [|n]; [vm_compute in H |- *; congruence|]).
  lia.
Qed.

Lemma get_name_overflow (i : Z) :
  33 <= i -> _get_keypoint_name i = Ret ("UNKNOWN_" +:+ str_of_int i).
Proof.
  intros H. unfold _get_keypoint_name.
  rewrite keypoint_names_length.
  destruct (Z.ltb_spec i (Z.of_nat 33)) as [Hlt|_]; [lia|reflexivity].
Qed.

(** Called from [enumerate], the lookup never raises. *)
Lemma get_name_total (n : nat) : exists s, _get_keypoint_name (Z.of_nat n) = Ret s.
Proof.
  destruct (spec_keypoint_table !! n) as [s|] eqn:E.
  - exists s. by apply get_name_in_table.
  - eexists. apply get_name_overflow.
    apply lookup_ge_None in E. change (length spec_keypoint_table) with 33%nat in E.
    lia.
Qed.

(** C1. For every index 0..32 [_get_keypoint_name] returns the entry of the
    specification's 33-name table at that index; for every index from 33 on
    it returns UNKNOWN_ followed by the index in decimal; and the result
    depends on the index alone: run as a statement in any two worlds it
    gives the same string and leaves the world as it was. *)
Theorem C1_get_keypoint_name (i : Z) (w1 w2 : World) :
  length spec_keypoint_table = 33%nat /\
  (0 <= i <= 32 ->
     exists s, spec_keypoint_table !! Z.to_nat i = Some s /\
               _get_keypoint_name i = Ret s) /\
  (33 <= i -> _get_keypoint_name i = Ret ("UNKNOWN_" +:+ str_of_int i)) /\
  lift (_get_keypoint_name i) w1 = (_get_keypoint_name i, w1) /\
  fst (lift (_get_keypoint_name i) w1) = fst (lift (_get_keypoint_name i) w2).
Proof.
  split; [reflexivity|]. split; [|split; [apply get_name_overflow|split; reflexivity]].
  intros Hi.
  destruct (spec_keypoint_table !! Z.to_nat i) as [s|] eqn:E.
  - exists s. split; [reflexivity|].
    rewrite <- (Z2Nat.id i) by lia. by apply get_name_in_table.
  - apply lookup_ge_None in E. change (length spec_keypoint_table) with 33%nat in E.
    lia.
Qed.

Lemma C1_get_keypoint_name_witness :
  _get_keypoint_name 11 = Ret "LEFT_SHOULDER" /\
  _get_keypoint_name 40 = Ret "UNKNOWN_40".
Proof.
  destruct (C1_get_keypoint_name 11 world0 world0) as (_ & H11 & _).
  destruct (C1_get_keypoint_name 40 world0 world0) as (_ & _ & H40 & _).
  split.
  - destruct H11 as (s & Hs & Hn); [lia|].
    vm_compute in Hs. injection Hs as <-. exact Hn.
  - apply H40. lia.
Defined.

(** ** The result dictionaries *)

(** The world after one reading of the clock. *)
Definition tick (w : World) : World := mkWorld (fs w) (S (reads w)) (stdout w).

(** Reading fields back from a result. *)
Definition success_of (d : gmap string PyVal) : option bool :=
  match d !! "success" with
  | Some (VBool b) => Some b
  | _ => None
  end.

Definition keypoint_id (v : PyVal) : option Z :=
  match v with
  | VDict k => match k !! "id" with
               | Some (VInt i) => Some i
               | _ => None
               end
  | _ => None
  end.

Definition keypoint_name (v : PyVal) : option string :=
  match v with
  | VDict k => match k !! "name" with
               | Some (VStr s) => Some s
               | _ => None
               end
  | _ => None
  end.

(** The ids [first, first + 1, ..., first + n - 1]. *)
Definition id_range (first n : nat) : list (option Z) :=
  (fun i => Some (Z.of_nat i)) <$> seq first n.

Ltac run :=
  unfold try_except, bind, lift, raise, ret, datetime_now, print,
    os_path_exists, os_remove, read_binary, write_file, save in *;
  simpl in *.

Section Results.

Variable L : Libs.

Definition stamp (w : World) : string := isoformat L (clock L (reads w)).

Definition error_dict (msg : string) (w : World) : gmap string PyVal :=
  list_to_map [ ("success", VBool false);
                ("error", VStr msg);
                ("timestamp", VStr (stamp w)) ].

Lemma error_result_run (e : Exception) (w : World) :
  error_result L e w = (Ret (error_dict (exc_str e) w), tick w).
Proof. reflexivity. Qed.

Lemma error_dict_fields (msg : string) (w : World) :
  success_of (error_dict msg w) = Some false /\
  error_dict msg w !! "error" = Some (VStr msg) /\
  error_dict msg w !! "timestamp" = Some (VStr (stamp w)) /\
  error_dict msg w !! "keypoints" = None.
Proof. repeat split. Qed.

Lemma keypoints_loop_spec (landmarks : list Landmark) :
  forall (idx : nat) (acc : list PyVal),
    exists kps,
      keypoints_loop idx landmarks acc = Ret (acc ++ kps)%list /\
      length kps = length landmarks /\
      keypoint_id <$> kps = id_range idx (length landmarks).
Proof.
  induction landmarks as [|lm rest IH]; intros idx acc.
  - exists []. rewrite app_nil_r. done.
  - simpl. destruct (get_name_total idx) as [s Hs]. rewrite Hs.
    match goal with
    | |- context [keypoints_loop _ _ (acc ++ [?kp])%list] =>
        destruct (IH (S idx) (acc ++ [kp])%list) as (kps & E & Hlen & Hids);
        exists (kp :: kps)
    end.
    rewrite E, <- app_assoc. split; [reflexivity|]. split; [simpl; lia|].
    unfold id_range in *. rewrite fmap_cons, Hids. reflexivity.
Qed.

(** What the success branch builds, given the model's answer and the
    keypoint list of the loop. *)
Definition success_dict (image : Image) (w : World)
    (results : option (list Landmark)) (kps : list PyVal) : gmap string PyVal :=
  let keypoints_data : gmap string PyVal :=
    list_to_map [ ("success", VBool true);
                  ("timestamp", VStr (stamp w));
                  ("image_info", VDict (list_to_map
                      [ ("width", VInt (img_width image));
                        ("height", VInt (img_height image));
                        ("channels", VInt (img_channels image)) ]));
                  ("keypoints", VList []);
                  ("pose_detected", VBool (bool_decide (is_Some results))) ] in
  match results with
  | Some _ => <["keypoints" := VList kps]> keypoints_data
  | None => keypoints_data
  end.

Lemma success_dict_fields image w results kps :
  (results = None -> kps = []) ->
  success_of (success_dict image w results kps) = Some true /\
  success_dict image w results kps !! "timestamp" = Some (VStr (stamp w)) /\
  success_dict image w results kps !! "keypoints" = Some (VList kps) /\
  success_dict image w results kps !! "pose_detected"
    = Some (VBool (bool_decide (is_Some results))) /\
  success_dict image w results kps !! "error" = None.
Proof.
  intros Hn. destruct results as [lms|].
  - repeat split.
  - rewrite (Hn eq_refl). repeat split.
Qed.

(** The outcome of lines 43-75 on a decoded image: either a library call
    raised and nothing else happened, or the clock was read once and the
    success dictionary was built. *)
Inductive data_outcome (image : Image) (w : World)
  : Exc (gmap string PyVal) * World -> Prop :=
| data_raised (e : Exception) :
    (cv2_cvtColor L image = Raise e \/
     exists rgb, cv2_cvtColor L image = Ret rgb /\ pose_process L rgb = Raise e) ->
    data_outcome image w (Raise e, w)
| data_built (rgb : Image) (results : option (list Landmark)) (kps : list PyVal) :
    cv2_cvtColor L image = Ret rgb ->
    pose_process L rgb = Ret results ->
    length kps = length (default [] results) ->
    keypoint_id <$> kps = id_range 0 (length kps) ->
    data_outcome image w (Ret (success_dict image w results kps), tick w).

Lemma keypoints_data_of_run (image : Image) (w : World) :
  data_outcome image w (keypoints_data_of L image w).
Proof.
  unfold keypoints_data_of. run.
  destruct (cv2_cvtColor L image) as [rgb|e] eqn:Ec.
  2:{ apply data_raised. by left. }
  destruct (pose_process L rgb) as [results|e] eqn:Ep.
  2:{ apply data_raised. right. eauto. }
  destruct results as [lms|].
  - destruct (keypoints_loop_spec lms 0 []) as (kps & E & Hlen & Hids).
    simpl in E. rewrite E.
    apply (data_built image w rgb (Some lms) kps); auto.
    by rewrite Hlen.
  - by apply (data_built image w rgb None []).
Qed.

End Results.

(** ** The two extraction methods *)

Section Methods.

Variable L : Libs.

(** Every dictionary a method can return, in the world [w] where its single
    clock reading is taken. *)
Inductive extract_outcome (w : World) : gmap string PyVal -> Prop :=
| out_error (msg : string) : extract_outcome w (error_dict L msg w)
| out_success (image rgb : Image) (results : option (list Landmark))
    (kps : list PyVal) :
    cv2_cvtColor L image = Ret rgb ->
    pose_process L rgb = Ret results ->
    length kps = length (default [] results) ->
    keypoint_id <$> kps = id_range 0 (length kps) ->
    extract_outcome w (success_dict L image w results kps).

(** A [try] block that ends in lines 43-75 and leaves the world alone before
    them always produces one of these. *)
Lemma try_data_outcome (image : Image) (w : World) :
  exists d,
    try_except (keypoints_data_of L image) (error_result L) w = (Ret d, tick w) /\
    extract_outcome w d /\
    (forall e w', keypoints_data_of L image w = (Raise e, w') ->
                  d = error_dict L (exc_str e) w) /\
    (forall d' w', keypoints_data_of L image w = (Ret d', w') -> d = d').
Proof.
  unfold try_except.
  destruct (keypoints_data_of_run L image w) as [e He|rgb results kps Hc Hp Hl Hi].
  - rewrite error_result_run. eexists. split; [reflexivity|].
    split; [constructor|]. split; [|discriminate]. by intros e' w' [= <- _].
  - eexists. split; [reflexivity|].
    split; [by econstructor|]. split; [discriminate|]. by intros d' w' [= <- _].
Qed.

Lemma extract_keypoints_unreadable (path : string) (w : World) :
  cv2_imread L path w = (Ret None, w) ->
  extract_keypoints L path w
  = (Ret (error_dict L ("Could not read image from " +:+ path) w), tick w).
Proof.
  intros H. unfold extract_keypoints, extract_keypoints_try, try_except, bind.
  rewrite H. reflexivity.
Qed.

Lemma cv2_imread_world (path : string) (w : World) :
  snd (cv2_imread L path w) = w.
Proof. unfold cv2_imread. by destruct (fs w !! path). Qed.

Lemma extract_keypoints_run (path : string) (w : World) :
  exists d,
    extract_keypoints L path w = (Ret d, tick w) /\
    extract_outcome w d /\
    (forall e w', extract_keypoints_try L path w = (Raise e, w') ->
                  d = error_dict L (exc_str e) w).
Proof.
  unfold extract_keypoints, extract_keypoints_try.
  pose proof (cv2_imread_world path w) as Hw.
  unfold try_except, bind, raise.
  destruct (cv2_imread L path w) as [[[image|]|e] w1]; simpl in Hw; subst w1.
  - destruct (try_data_outcome image w) as (d & E & Ho & Hr & _).
    unfold try_except in E. exists d. repeat split; auto.
  - rewrite error_result_run. eexists. split; [reflexivity|].
    split; [constructor|]. by intros e w' [= <- _].
  - rewrite error_result_run. eexists. split; [reflexivity|].
    split; [constructor|]. by intros e' w' [= <- _].
Qed.

Lemma extract_keypoints_from_base64_run (base64_image : PyVal) (w : World) :
  exists d,
    extract_keypoints_from_base64 L base64_image w = (Ret d, tick w) /\
    extract_outcome w d /\
    (forall e w', extract_keypoints_from_base64_try L base64_image w = (Raise e, w') ->
                  d = error_dict L (exc_str e) w).
Proof.
  unfold extract_keypoints_from_base64, extract_keypoints_from_base64_try.
  unfold try_except, bind, lift, raise.
  destruct (payload base64_image) as [data|e].
  2:{ rewrite error_result_run. eexists. split; [reflexivity|].
      split; [constructor|]. by intros e' w' [= <- _]. }
  destruct (b64decode L data) as [image_data|e].
  2:{ rewrite error_result_run. eexists. split; [reflexivity|].
      split; [constructor|]. by intros e' w' [= <- _]. }
  destruct (cv2_imdecode L image_data) as [[image|]|e].
  - destruct (try_data_outcome image w) as (d & E & Ho & Hr & _).
    unfold try_except in E. exists d. repeat split; auto.
  - rewrite error_result_run. eexists. split; [reflexivity|].
    split; [constructor|]. by intros e w' [= <- _].
  - rewrite error_result_run. eexists. split; [reflexivity|].
    split; [constructor|]. by intros e' w' [= <- _].
Qed.

(** Neither method touches the files or the standard output. *)
Lemma extract_keypoints_world (path : string) (w : World) :
  snd (extract_keypoints L path w) = tick w.
Proof. destruct (extract_keypoints_run path w) as (d & E & _). by rewrite E. Qed.

Lemma extract_outcome_fields (w : World) (d : gmap string PyVal) :
  extract_outcome w d ->
  exists b : bool,
    success_of d = Some b /\
    d !! "timestamp" = Some (VStr (stamp L w)) /\
    (b = false -> exists msg, d = error_dict L msg w) /\
    (b = true -> d !! "error" = None).
Proof.
  intros [msg|image rgb results kps Hc Hp Hl Hi].
  - exists false. repeat split; eauto. discriminate.
  - exists true. destruct results; repeat split; discriminate.
Qed.

End Methods.

(** ** Method-level claims *)

(** C9. Both extraction methods are total: for every path, every argument
    of the base64 method (a string or any other JSON value) and every world,
    the call returns a dictionary (it never raises) that holds a boolean
    [success] and a [timestamp]; whenever [success] is false there is an
    [error] entry, and whenever the [try] block raises [e] the result has
    [success = false] and [error = str(e)]. *)
Theorem C9_methods_total (L : Libs) (path : string) (base64_image : PyVal)
    (w : World) :
  (exists d b ts,
     extract_keypoints L path w = (Ret d, tick w) /\
     success_of d = Some b /\
     d !! "timestamp" = Some (VStr ts) /\
     (b = false -> exists msg, d !! "error" = Some (VStr msg)) /\
     (forall e w', extract_keypoints_try L path w = (Raise e, w') ->
        success_of d = Some false /\ d !! "error" = Some (VStr (exc_str e)))) /\
  (exists d b ts,
     extract_keypoints_from_base64 L base64_image w = (Ret d, tick w) /\
     success_of d = Some b /\
     d !! "timestamp" = Some (VStr ts) /\
     (b = false -> exists msg, d !! "error" = Some (VStr msg)) /\
     (forall e w', extract_keypoints_from_base64_try L base64_image w = (Raise e, w') ->
        success_of d = Some false /\ d !! "error" = Some (VStr (exc_str e)))).
Proof.
  split.
  - destruct (extract_keypoints_run L path w) as (d & E & Ho & Hr).
    destruct (extract_outcome_fields L w d Ho) as (b & Hs & Ht & Hf & _).
    exists d, b, (stamp L w). repeat split; auto.
    + intros Hb. destruct (Hf Hb) as [msg ->]. by exists msg.
    + by rewrite (Hr e w' H).
    + by rewrite (Hr e w' H).
  - destruct (extract_keypoints_from_base64_run L base64_image w) as (d & E & Ho & Hr).
    destruct (extract_outcome_fields L w d Ho) as (b & Hs & Ht & Hf & _).
    exists d, b, (stamp L w). repeat split; auto.
    + intros Hb. destruct (Hf Hb) as [msg ->]. by exists msg.
    + by rewrite (Hr e w' H).
    + by rewrite (Hr e w' H).
Qed.

(** The contract of the pose model (specification, section 4.2): no
    landmarks at all, or exactly 33 of them. *)
Definition adapter_conformant (L : Libs) : Prop :=
  forall image landmarks,
    pose_process L image = Ret (Some landmarks) -> length landmarks = 33%nat.

(** The dictionaries the two methods return. *)
Inductive produced (L : Libs) (d : gmap string PyVal) : Prop :=
| from_path (path : string) (w w' : World) :
    extract_keypoints L path w = (Ret d, w') -> produced L d
| from_base64 (base64_image : PyVal) (w w' : World) :
    extract_keypoints_from_base64 L base64_image w = (Ret d, w') -> produced L d.

Lemma produced_outcome (L : Libs) (d : gmap string PyVal) :
  produced L d -> exists w, extract_outcome L w d.
Proof.
  intros [path w w' H|v w w' H]; exists w.
  - destruct (extract_keypoints_run L path w) as (d' & E & Ho & _).
    rewrite E in H. by injection H as <- _.
  - destruct (extract_keypoints_from_base64_run L v w) as (d' & E & Ho & _).
    rewrite E in H. by injection H as <- _.
Qed.

Lemma id_range_NoDup (first n : nat) : NoDup (id_range first n).
Proof.
  unfold id_range. apply NoDup_fmap_2; [|apply NoDup_seq].
  intros i j [= H]. lia.
Qed.

(** C5. With a pose model that keeps its contract (none or exactly 33
    landmarks), every successful result of either method has a keypoint list
    whose ids are 0, 1, 2, ... in that order (so pairwise distinct, the k-th
    keypoint carrying id k), at most 33 of them and exactly 33 when a pose
    was detected, and the list is empty exactly when [pose_detected] is
    false. *)
Theorem C5_keypoints_invariant (L : Libs) (d : gmap string PyVal) :
  adapter_conformant L ->
  produced L d ->
  success_of d = Some true ->
  exists (kps : list PyVal) (detected : bool),
    d !! "keypoints" = Some (VList kps) /\
    d !! "pose_detected" = Some (VBool detected) /\
    keypoint_id <$> kps = id_range 0 (length kps) /\
    NoDup (keypoint_id <$> kps) /\
    (forall k v, kps !! k = Some v -> keypoint_id v = Some (Z.of_nat k) /\ (k <= 32)%nat) /\
    (detected = true -> length kps = 33%nat) /\
    (kps = [] <-> detected = false).
Proof.
  intros Hconf Hp Hs.
  destruct (produced_outcome L d Hp) as [w Ho].
  destruct Ho as [msg|image rgb results kps Hc Hpp Hl Hi]; [discriminate|].
  assert (Hn : results = None -> kps = []).
  { intros ->. by destruct kps. }
  destruct (success_dict_fields L image w results kps Hn) as (_ & _ & Hk & Hd & _).
  assert (Hlen : results <> None -> length kps = 33%nat).
  { destruct results as [lms|]; [|done]. intros _. rewrite Hl. simpl. eauto. }
  exists kps, (bool_decide (is_Some results)).
  split; [exact Hk|]. split; [exact Hd|]. split; [exact Hi|].
  split; [rewrite Hi; apply id_range_NoDup|].
  split; [|split].
  - intros k v Hkv.
    assert (Hlt : (k < length kps)%nat) by (by eapply lookup_lt_Some).
    split.
    + assert (H1 : (keypoint_id <$> kps) !! k = Some (keypoint_id v))
        by (by rewrite list_lookup_fmap, Hkv).
      rewrite Hi in H1. unfold id_range in H1.
      rewrite list_lookup_fmap, lookup_seq_lt in H1 by done.
      simpl in H1. congruence.
    + destruct results as [lms|].
      * rewrite Hlen in Hlt by done. lia.
      * rewrite (Hn eq_refl) in Hlt. simpl in Hlt. lia.
  - intros Hdet. apply Hlen. destruct results; [done|discriminate].
  - destruct results as [lms|]; simpl.
    + split; [|discriminate]. intros ->. specialize (Hlen ltac:(done)). discriminate.
    + split; [done|]. intros _. by apply Hn.
Qed.

Lemma toy_conformant : adapter_conformant toy_libs.
Proof.
  intros image lms H. simpl in H. unfold toy_pose in H.
  destruct (img_data image) as [|b0 [|b1 r]]; try discriminate.
  destruct b1; try discriminate. by injection H as <-.
Qed.

(** The result of the base64 method on a data URL holding a picture of a
    person, in the toy instance. *)
Definition toy_result : gmap string PyVal :=
  match fst (extract_keypoints_from_base64 toy_libs (VStr "data:,IP") world0) with
  | Ret d => d
  | Raise _ => ∅
  end.

Lemma C5_keypoints_invariant_witness :
  exists (kps : list PyVal) (detected : bool),
    toy_result !! "keypoints" = Some (VList kps) /\
    toy_result !! "pose_detected" = Some (VBool detected) /\
    keypoint_id <$> kps = id_range 0 (length kps) /\
    NoDup (keypoint_id <$> kps) /\
    (forall k v, kps !! k = Some v -> keypoint_id v = Some (Z.of_nat k) /\ (k <= 32)%nat) /\
    (detected = true -> length kps = 33%nat) /\
    (kps = [] <-> detected = false).
Proof.
  apply (C5_keypoints_invariant toy_libs toy_result).
  - exact toy_conformant.
  - apply (from_base64 toy_libs toy_result (VStr "data:,IP") world0 (tick world0)).
    vm_compute. reflexivity.
  - vm_compute. reflexivity.
Defined.

(** The codec's verdict on a byte stream that is no image: it returns
    [None], or it raises an error that carries a message. *)
Definition rejects (r : Exc (option Image)) : Prop :=
  match r with
  | Ret (Some _) => False
  | Ret None => True
  | Raise e => exc_str e <> ""
  end.

(** C6. A byte stream the codec rejects gives, on either route, a returned
    dictionary (no exception) with [success = false] and a non-empty
    [error] string: through a file holding the bytes, and through a base64
    argument whose payload decodes to the bytes. *)
Theorem C6_corrupted_stream (L : Libs) (w : World) (path : string)
    (base64_image : PyVal) (data : string) (bs : list Byte.byte) :
  (fs w !! path = Some bs ->
   rejects (cv2_imread_data L bs) ->
   exists d msg,
     extract_keypoints L path w = (Ret d, tick w) /\
     success_of d = Some false /\
     d !! "error" = Some (VStr msg) /\ msg <> "") /\
  (payload base64_image = Ret data ->
   b64decode L data = Ret bs ->
   rejects (cv2_imdecode L bs) ->
   exists d msg,
     extract_keypoints_from_base64 L base64_image w = (Ret d, tick w) /\
     success_of d = Some false /\
     d !! "error" = Some (VStr msg) /\ msg <> "").
Proof.
  split.
  - intros Hf Hr.
    unfold extract_keypoints, extract_keypoints_try, try_except, bind, raise, cv2_imread.
    rewrite Hf. destruct (cv2_imread_data L bs) as [[image|]|e]; [done| |].
    + rewrite error_result_run. do 2 eexists. repeat split. done.
    + rewrite error_result_run. do 2 eexists. repeat split. exact Hr.
  - intros Hp Hb Hr.
    unfold extract_keypoints_from_base64, extract_keypoints_from_base64_try,
      try_except, bind, raise, lift.
    rewrite Hp, Hb. destruct (cv2_imdecode L bs) as [[image|]|e]; [done| |].
    + rewrite error_result_run. do 2 eexists. repeat split. done.
    + rewrite error_result_run. do 2 eexists. repeat split. exact Hr.
Qed.

Definition junk_world : World :=
  mkWorld {[ "upload.bin" := [Byte.x00; Byte.x01] ]} 0 [].

Lemma C6_corrupted_stream_witness :
  (exists d msg,
     extract_keypoints toy_libs "upload.bin" junk_world = (Ret d, tick junk_world) /\
     success_of d = Some false /\
     d !! "error" = Some (VStr msg) /\ msg <> "") /\
  (exists d msg,
     extract_keypoints_from_base64 toy_libs (VStr "data:,zz") junk_world
       = (Ret d, tick junk_world) /\
     success_of d = Some false /\
     d !! "error" = Some (VStr msg) /\ msg <> "").
Proof.
  split.
  - apply (C6_corrupted_stream toy_libs junk_world "upload.bin" VNone ""
             [Byte.x00; Byte.x01]).
    + vm_compute. reflexivity.
    + exact I.
  - apply (C6_corrupted_stream toy_libs junk_world "" (VStr "data:,zz") "zz"
             [Byte.x7a; Byte.x7a]).
    + reflexivity.
    + reflexivity.
    + exact I.
Defined.

(** ** The base64 payload *)

(** The payload as the specification words it: everything after the first
    comma when there is one, the whole string otherwise. *)
Fixpoint after_first_comma (s : string) : string :=
  match s with
  | EmptyString => EmptyString
  | String c r => if Ascii.eqb c ","%char then r else after_first_comma r
  end.

Fixpoint before_first_comma (s : string) : string :=
  match s with
  | EmptyString => EmptyString
  | String c r =>
      if Ascii.eqb c ","%char then EmptyString else String c (before_first_comma r)
  end.

Definition spec_payload (s : string) : string :=
  if is_substring "," s then after_first_comma s else s.

(** The image the base64 method gets out of its argument, if any. *)
Definition decoded_image (L : Libs) (base64_image : PyVal) : Exc (option Image) :=
  match payload base64_image with
  | Raise e => Raise e
  | Ret data =>
      match b64decode L data with
      | Raise e => Raise e
      | Ret bs => cv2_imdecode L bs
      end
  end.

Lemma has_comma_cons (c : ascii) (r : string) :
  is_substring "," (String c r) = Ascii.eqb c ","%char || is_substring "," r.
Proof.
  cbn [is_substring is_prefix]. rewrite (Ascii.eqb_sym ","%char c).
  destruct (Ascii.eqb c ","); reflexivity.
Qed.

Lemma split_comma_cons (s : string) :
  split_comma s
  = before_first_comma s
      :: (if is_substring "," s then split_comma (after_first_comma s) else []).
Proof.
  induction s as [|c r IH]; [reflexivity|].
  rewrite has_comma_cons. cbn [split_comma before_first_comma after_first_comma].
  destruct (Ascii.eqb c ","); [reflexivity|].
  rewrite IH. reflexivity.
Qed.

Lemma payload_with_comma (s : string) :
  is_substring "," s = true ->
  payload (VStr s) = Ret (before_first_comma (after_first_comma s)).
Proof.
  intros H. unfold payload, py_in. rewrite H.
  rewrite split_comma_cons, H, (split_comma_cons (after_first_comma s)).
  reflexivity.
Qed.

Lemma before_no_comma (s : string) :
  is_substring "," s = false -> before_first_comma s = s.
Proof.
  induction s as [|c r IH]; [reflexivity|].
  rewrite has_comma_cons. simpl. destruct (Ascii.eqb c ","); [discriminate|].
  simpl. intros H. by rewrite IH.
Qed.

(** The claim of the specification fails on a string with two commas: the
    code decodes [AAAA], the text after the first comma is [AAAA,BBBB]. *)
Lemma C3_counterexample :
  payload (VStr "data:image/png;base64,AAAA,BBBB") = Ret "AAAA" /\
  spec_payload "data:image/png;base64,AAAA,BBBB" = "AAAA,BBBB" /\
  payload (VStr "data:image/png;base64,AAAA,BBBB")
  <> Ret (spec_payload "data:image/png;base64,AAAA,BBBB").
Proof. split; [reflexivity|]. split; [reflexivity|]. discriminate. Qed.

(** C3 (amended). For a string argument with a comma the payload handed to
    the base64 decoder is the text between the first comma and the next one
    (up to the end of the string when there is no second comma, where it is
    everything after the first comma); without a comma it is the whole
    string; and when payload, base64 decoding and image decoding do not end
    in an image, the method returns [success = false] with an [error]. *)
Theorem C3_payload (L : Libs) (s : string) (w : World) :
  (is_substring "," s = true ->
   payload (VStr s) = Ret (before_first_comma (after_first_comma s))) /\
  (is_substring "," s = true ->
   is_substring "," (after_first_comma s) = false ->
   payload (VStr s) = Ret (after_first_comma s)) /\
  (is_substring "," s = false -> payload (VStr s) = Ret s) /\
  ((forall image, decoded_image L (VStr s) <> Ret (Some image)) ->
   exists d msg,
     extract_keypoints_from_base64 L (VStr s) w = (Ret d, tick w) /\
     success_of d = Some false /\
     d !! "error" = Some (VStr msg)).
Proof.
  split; [apply payload_with_comma|].
  split; [|split].
  - intros H1 H2. rewrite payload_with_comma by done. by rewrite before_no_comma.
  - intros H. unfold payload, py_in. by rewrite H.
  - intros Hno.
    unfold extract_keypoints_from_base64, extract_keypoints_from_base64_try,
      try_except, bind, raise, lift.
    unfold decoded_image in Hno.
    destruct (payload (VStr s)) as [data|e].
    2:{ rewrite error_result_run. by do 2 eexists. }
    destruct (b64decode L data) as [bs|e].
    2:{ rewrite error_result_run. by do 2 eexists. }
    destruct (cv2_imdecode L bs) as [[image|]|e].
    + by destruct (Hno image).
    + rewrite error_result_run. by do 2 eexists.
    + rewrite error_result_run. by do 2 eexists.
Qed.

Lemma C3_payload_witness :
  payload (VStr "a,b,c") = Ret "b" /\
  payload (VStr "data:image/jpeg;base64,IP") = Ret "IP" /\
  payload (VStr "IP") = Ret "IP" /\
  exists d msg,
    extract_keypoints_from_base64 toy_libs (VStr "data:,") world0
      = (Ret d, tick world0) /\
    success_of d = Some false /\
    d !! "error" = Some (VStr msg).
Proof.
  split; [|split; [|split]].
  - apply (C3_payload toy_libs "a,b,c" world0). reflexivity.
  - apply (C3_payload toy_libs "data:image/jpeg;base64,IP" world0); reflexivity.
  - apply (C3_payload toy_libs "IP" world0). reflexivity.
  - apply (C3_payload toy_libs "data:," world0). intros image. vm_compute. discriminate.
Defined.

(** ** The batch handler *)

(** The uploads the loop does not skip. *)
Definition attempted (fl : list FileStorage) : list FileStorage :=
  filter (fun f => filename f <> "") fl.

Definition skipped (fl : list FileStorage) : list FileStorage :=
  filter (fun f => filename f = "") fl.

Definition result_filename (r : PyVal) : option string :=
  match r with
  | VDict d => match d !! "filename" with
               | Some (VStr s) => Some s
               | _ => None
               end
  | _ => None
  end.

Section Batch.

Variable L : Libs.

(** [r] is the record of [file]: what [extract_keypoints] returned for a
    temporary file holding the upload, with the upload's name added. *)
Definition result_for (file : FileStorage) (r : PyVal) : Prop :=
  exists (w0 : World) (now : Z) (d : gmap string PyVal),
    fs w0 !! temp_name L "temp_" now file = Some (content file) /\
    extract_keypoints L (temp_name L "temp_" now file) w0 = (Ret d, tick w0) /\
    r = VDict (<["filename" := VStr (filename file)]> d).

Lemma result_for_filename (file : FileStorage) (r : PyVal) :
  result_for file r -> result_filename r = Some (filename file).
Proof.
  intros (w0 & now & d & _ & _ & ->). unfold result_filename.
  by rewrite lookup_insert_eq.
Qed.

Lemma result_for_success (file : FileStorage) (r : PyVal) :
  result_for file r ->
  exists d b, r = VDict d /\ success_of d = Some b.
Proof.
  intros (w0 & now & d & _ & E & ->).
  destruct (extract_keypoints_run L (temp_name L "temp_" now file) w0)
    as (d' & E' & Ho & _).
  rewrite E' in E. injection E as ->.
  destruct (extract_outcome_fields L w0 d Ho) as (b & Hs & _).
  eexists _, b. split; [reflexivity|].
  unfold success_of in *. by rewrite lookup_insert_ne.
Qed.

(** One round of the loop on an upload with a name. *)
Lemma batch_loop_step (file : FileStorage) (rest : list FileStorage)
    (results : list PyVal) (w : World) :
  filename file <> "" ->
  let temp_path := temp_name L "temp_" (clock L (reads w)) file in
  exists r w1,
    result_for file r /\
    fs w1 = delete temp_path (fs w) /\
    stdout w1 = stdout w /\
    batch_loop L (file :: rest) results w
    = if creatable L temp_path
      then batch_loop L rest (results ++ [r])%list w1
      else (Raise (write_error L temp_path),
            failed_write L temp_path (content file) (tick w)).
Proof.
  intros Hne temp_path.
  cbn [batch_loop]. destruct (String.eqb_spec (filename file) "") as [|_]; [done|].
  unfold bind at 1. unfold datetime_now at 1. fold (tick w). fold temp_path.
  unfold bind at 1. unfold save, write_file.
  set (w2 := set_fs (<[temp_path := content file]> (fs (tick w))) (tick w)).
  destruct (extract_keypoints_run L temp_path w2) as (d & E & _).
  exists (VDict (<["filename" := VStr (filename file)]> d)).
  exists (set_fs (delete temp_path (fs (tick w2))) (tick w2)).
  split; [|split; [|split]].
  - exists w2, (clock L (reads w)), d. fold temp_path. split; [|done].
    apply lookup_insert_eq.
  - simpl. by rewrite delete_insert_eq.
  - reflexivity.
  - destruct (creatable L temp_path); [|reflexivity].
    unfold bind at 1. rewrite E. unfold bind at 1. unfold os_remove at 1.
    assert (Hl : fs (tick w2) !! temp_path = Some (content file))
      by apply lookup_insert_eq.
    rewrite Hl. reflexivity.
Qed.

Lemma batch_loop_skip (file : FileStorage) (rest : list FileStorage)
    (results : list PyVal) (w : World) :
  filename file = "" ->
  batch_loop L (file :: rest) results w = batch_loop L rest results w.
Proof.
  intros H. cbn [batch_loop]. rewrite H. reflexivity.
Qed.

(** Whenever the loop finishes, it has appended one record per attempted
    upload, in upload order. *)
Lemma batch_loop_sound (fl : list FileStorage) :
  forall (results : list PyVal) (w : World) (out : list PyVal) (w' : World),
    batch_loop L fl results w = (Ret out, w') ->
    exists new,
      out = (results ++ new)%list /\ Forall2 result_for (attempted fl) new.
Proof.
  induction fl as [|file rest IH]; intros results w out w' H.
  - injection H as <- _. exists []. by rewrite app_nil_r.
  - unfold attempted. destruct (decide (filename file = "")) as [He|Hne].
    + rewrite batch_loop_skip in H by done.
      rewrite filter_cons_False by (by intros ?). by eapply IH.
    + destruct (batch_loop_step file rest results w Hne) as (r & w1 & Hr & _ & _ & E).
      rewrite E in H. destruct (creatable L _); [|discriminate].
      destruct (IH _ _ _ _ H) as (new & -> & HF).
      exists (r :: new). rewrite <- app_assoc. split; [reflexivity|].
      rewrite filter_cons_True by done. by constructor.
Qed.

(** When every temporary file can be created, the loop does finish. *)
Lemma batch_loop_complete (fl : list FileStorage) :
  (forall f now, f ∈ attempted fl -> creatable L (temp_name L "temp_" now f) = true) ->
  forall (results : list PyVal) (w : World),
    exists out w', batch_loop L fl results w = (Ret out, w').
Proof.
  induction fl as [|file rest IH]; intros Hc results w.
  - by do 2 eexists.
  - unfold attempted in Hc. destruct (decide (filename file = "")) as [He|Hne].
    + rewrite batch_loop_skip by done. apply IH.
      intros f now Hf. apply Hc. by rewrite filter_cons_False by (by intros ?).
    + destruct (batch_loop_step file rest results w Hne) as (r & w1 & _ & _ & _ & E).
      rewrite E, Hc.
      * apply IH. intros f now Hf. apply Hc.
        rewrite filter_cons_True by done. by right.
      * rewrite filter_cons_True by done. by left.
Qed.

Lemma attempted_length (fl : list FileStorage) :
  Z.of_nat (length (attempted fl))
  = Z.of_nat (length fl) - Z.of_nat (length (skipped fl)).
Proof.
  unfold attempted, skipped. induction fl as [|f rest IH]; [reflexivity|].
  destruct (decide (filename f = "")) as [He|Hne].
  - rewrite filter_cons_False by (by intros ?). rewrite filter_cons_True by done.
    simpl. lia.
  - rewrite filter_cons_True by done. rewrite filter_cons_False by done.
    simpl. lia.
Qed.

End Batch.

(** The batch claim as the specification states it, for one request: the
    response reports [total_processed = N - M] and carries [N - M] records,
    one for each upload with a name. *)
Definition batch_claim (L : Libs) (request : Request) (w : World) : Prop :=
  let fl := files_getlist "images" (files request) in
  exists resp w' results,
    batch_extract_api L request w = (Ret resp, w') /\
    body resp !! "total_processed"
      = Some (VInt (Z.of_nat (length fl) - Z.of_nat (length (skipped fl)))) /\
    body resp !! "results" = Some (VList results) /\
    Z.of_nat (length results)
      = Z.of_nat (length fl) - Z.of_nat (length (skipped fl)) /\
    Forall2 (result_for L) (attempted fl) results.

(** The status of an answer, and a field of its body. *)
Definition answer_status (r : Exc Response * World) : option Z :=
  match fst r with
  | Ret resp => Some (status resp)
  | Raise _ => None
  end.

Definition answer_field (key : string) (r : Exc Response * World) : option PyVal :=
  match fst r with
  | Ret resp => body resp !! key
  | Raise _ => None
  end.

(** With no [images] part (N = 0) the handler answers 400 and reports no
    count; and when a temporary file cannot be created it answers 500,
    again with no count. *)
Lemma C2_counterexample :
  ~ batch_claim toy_libs (mkRequest [] (Ret VNone)) world0 /\
  ~ batch_claim toy_libs
      (mkRequest [("images", mkFile "a/b.jpg" [Byte.x49])] (Ret VNone)) world0 /\
  answer_status (batch_extract_api toy_libs (mkRequest [] (Ret VNone)) world0)
  = Some 400 /\
  answer_field "total_processed"
    (batch_extract_api toy_libs (mkRequest [] (Ret VNone)) world0) = None /\
  answer_status
    (batch_extract_api toy_libs
       (mkRequest [("images", mkFile "a/b.jpg" [Byte.x49])] (Ret VNone)) world0)
  = Some 500 /\
  answer_field "total_processed"
    (batch_extract_api toy_libs
       (mkRequest [("images", mkFile "a/b.jpg" [Byte.x49])] (Ret VNone)) world0)
  = None.
Proof.
  split; [|split].
  - intros (resp & w' & results & E & Ht & _).
    vm_compute in E. injection E as <- _. vm_compute in Ht. discriminate.
  - intros (resp & w' & results & E & Ht & _).
    vm_compute in E. injection E as <- _. vm_compute in Ht. discriminate.
  - repeat split; vm_compute; reflexivity.
Qed.

(** A request without an [images] part: the guard of lines 295-296. *)
Lemma batch_without_images (L : Libs) (request : Request) (w : World) :
  files_getlist "images" (files request) = [] ->
  batch_extract_api L request w
  = (Ret (mkResponse 400 {[ "error" := VStr "No images provided" ]}), w).
Proof.
  intros H. unfold batch_extract_api, try_except, bind, files_contains.
  rewrite bool_decide_eq_false_2 by (intros Hn; by apply Hn).
  reflexivity.
Qed.

(** C2 (amended). A batch request without an [images] part is answered
    400 with an [error] text and no count.  For every batch request that
    has at least one [images] part and whose temporary files can all be
    created, the handler answers 200, skips the M uploads with an empty
    filename, returns one record for each of the other N - M uploads, each
    carrying the upload's filename and a boolean [success] of its own, and
    reports [total_processed = N - M], the length of [results]. *)
Theorem C2_batch_counts (L : Libs) (request : Request) (w : World) :
  (files_getlist "images" (files request) = [] ->
   exists resp,
     batch_extract_api L request w = (Ret resp, w) /\
     status resp = 400 /\
     body resp = {[ "error" := VStr "No images provided" ]} /\
     body resp !! "total_processed" = None /\
     body resp !! "results" = None) /\
  (files_getlist "images" (files request) <> [] ->
   (forall f now, f ∈ attempted (files_getlist "images" (files request)) ->
                  creatable L (temp_name L "temp_" now f) = true) ->
   batch_claim L request w /\
   (exists resp w', batch_extract_api L request w = (Ret resp, w') /\
                    status resp = 200 /\
                    success_of (body resp) = Some true) /\
   (forall resp w' results r,
      batch_extract_api L request w = (Ret resp, w') ->
      body resp !! "results" = Some (VList results) ->
      r ∈ results ->
      exists d b name, r = VDict d /\ success_of d = Some b /\
                       d !! "filename" = Some (VStr name) /\ name <> "")).
Proof.
  split.
  { intros H. eexists. split; [by apply batch_without_images|]. by repeat split. }
  intros Hne Hc. set (fl := files_getlist "images" (files request)) in *.
  destruct (batch_loop_complete L fl Hc [] w) as (out & w1 & E).
  destruct (batch_loop_sound L fl [] w out w1 E) as (new & -> & HF).
  simpl in E, HF.
  assert (Hrun : batch_extract_api L request w
                 = (Ret (jsonify (list_to_map
                      [ ("success", VBool true);
                        ("total_processed", VInt (Z.of_nat (length new)));
                        ("results", VList new);
                        ("timestamp", VStr (stamp L w1)) ])), tick w1)).
  { unfold batch_extract_api, try_except, bind at 1.
    unfold files_contains. fold fl. rewrite bool_decide_eq_true_2 by done.
    cbn [negb]. unfold bind at 1. rewrite E. reflexivity. }
  assert (Hlen : Z.of_nat (length new)
                 = Z.of_nat (length fl) - Z.of_nat (length (skipped fl))).
  { rewrite <- attempted_length. f_equal. symmetry. by eapply Forall2_length. }
  split; [|split].
  - unfold batch_claim. fold fl. eexists _, _, new. split; [exact Hrun|].
    split; [|split; [reflexivity|split; [exact Hlen|exact HF]]].
    simpl. rewrite <- Hlen. reflexivity.
  - do 2 eexists. split; [exact Hrun|]. split; reflexivity.
  - intros resp w' results r Hr Hl Hin. rewrite Hrun in Hr. injection Hr as <- _.
    injection Hl as <-.
    apply list_elem_of_lookup in Hin as [i Hi].
    destruct (Forall2_lookup_r _ _ _ _ _ HF Hi) as (f & Hf & Hfor).
    destruct (result_for_success L f r Hfor) as (d & b & -> & Hs).
    exists d, b, (filename f). repeat split; auto.
    + pose proof (result_for_filename L f _ Hfor) as Hn. unfold result_filename in Hn.
      destruct (d !! "filename") as [[]|]; congruence.
    + apply list_elem_of_lookup_2 in Hf. unfold attempted in Hf.
      by apply list_elem_of_filter in Hf as [? _].
Qed.

Definition toy_batch : Request :=
  mkRequest [ ("images", mkFile "a.jpg" [Byte.x49; Byte.x50]);
              ("images", mkFile "" []);
              ("images", mkFile "notes.txt" [Byte.x00]) ]
            (Ret VNone).

Lemma toy_batch_creatable (f : FileStorage) (now : Z) :
  f ∈ attempted (files_getlist "images" (files toy_batch)) ->
  creatable toy_libs (temp_name toy_libs "temp_" now f) = true.
Proof.
  intros Hf. vm_compute in Hf. apply list_elem_of_In in Hf.
  destruct Hf as [<-|[<-|[]]]; reflexivity.
Qed.

Definition no_images_request : Request :=
  mkRequest [("image", mkFile "a.jpg" [Byte.x49; Byte.x50])] (Ret VNone).

Lemma C2_batch_counts_witness :
  (exists resp,
     batch_extract_api toy_libs no_images_request world0 = (Ret resp, world0) /\
     status resp = 400 /\
     body resp = {[ "error" := VStr "No images provided" ]} /\
     body resp !! "total_processed" = None /\
     body resp !! "results" = None) /\
  batch_claim toy_libs toy_batch world0 /\
  (exists resp w', batch_extract_api toy_libs toy_batch world0 = (Ret resp, w') /\
                   status resp = 200 /\
                   success_of (body resp) = Some true) /\
  (forall resp w' results r,
     batch_extract_api toy_libs toy_batch world0 = (Ret resp, w') ->
     body resp !! "results" = Some (VList results) ->
     r ∈ results ->
     exists d b name, r = VDict d /\ success_of d = Some b /\
                      d !! "filename" = Some (VStr name) /\ name <> "").
Proof.
  split.
  - destruct (C2_batch_counts toy_libs no_images_request world0) as [H _].
    exact (H eq_refl).
  - destruct (C2_batch_counts toy_libs toy_batch world0) as [_ H].
    apply H.
    + vm_compute. discriminate.
    + exact toy_batch_creatable.
Defined.

(** C10. Whenever the batch response carries a [results] array, its i-th
    element is the record of the i-th upload with a non-empty filename: the
    dictionary [extract_keypoints] returned for that upload's temporary
    file, with that upload's filename added; so the filenames in [results]
    are those of the named uploads, in upload order. *)
Theorem C10_batch_order (L : Libs) (request : Request) (w w' : World)
    (resp : Response) (results : list PyVal) :
  batch_extract_api L request w = (Ret resp, w') ->
  body resp !! "results" = Some (VList results) ->
  let named := attempted (files_getlist "images" (files request)) in
  length results = length named /\
  (forall i r, results !! i = Some r ->
     exists f, named !! i = Some f /\ result_for L f r) /\
  result_filename <$> results = (fun f => Some (filename f)) <$> named.
Proof.
  intros Hrun Hres named.
  assert (HF : Forall2 (result_for L) named results).
  { unfold batch_extract_api, try_except, bind at 1 in Hrun.
    destruct (negb (files_contains "images" (files request))).
    - injection Hrun as <- _. discriminate.
    - unfold bind at 1 in Hrun.
      destruct (batch_loop L _ [] w) as [[out|e] w1] eqn:E.
      + injection Hrun as <- _. injection Hres as <-.
        destruct (batch_loop_sound L _ _ _ _ _ E) as (new & -> & HF). exact HF.
      + injection Hrun as <- _. discriminate. }
  split; [symmetry; by eapply Forall2_length|]. split.
  - intros i r Hi.
    destruct (Forall2_lookup_r _ _ _ _ _ HF Hi) as (f & Hf & Hfor). eauto.
  - clear Hrun Hres. induction HF as [|f r named' results' Hfr _ IH]; [reflexivity|].
    rewrite !fmap_cons, IH. f_equal. by apply (result_for_filename L).
Qed.

Definition toy_batch_response : Response :=
  match fst (batch_extract_api toy_libs toy_batch world0) with
  | Ret resp => resp
  | Raise _ => mkResponse 0 ∅
  end.

Definition toy_batch_results : list PyVal :=
  match body toy_batch_response !! "results" with
  | Some (VList l) => l
  | _ => []
  end.

Lemma C10_batch_order_witness :
  length toy_batch_results = 2%nat /\
  result_filename <$> toy_batch_results = [Some "a.jpg"; Some "notes.txt"].
Proof.
  destruct (C10_batch_order toy_libs toy_batch world0
              (snd (batch_extract_api toy_libs toy_batch world0))
              toy_batch_response toy_batch_results) as (Hlen & _ & Hnames).
  - vm_compute. reflexivity.
  - vm_compute. reflexivity.
  - split; [exact Hlen|exact Hnames].
Defined.

(** ** Temporary files *)

Section TempFiles.

Variable L : Libs.

Lemma files_contains_get (name : string) (fl : list (string * FileStorage))
    (file : FileStorage) :
  files_get name fl = Ret file -> files_contains name fl = true.
Proof.
  unfold files_get, files_contains. intros H.
  apply bool_decide_eq_true_2. by destruct (files_getlist name fl).
Qed.

(** The upload branch of [/extract-pose] removes its temporary file whether
    the extraction succeeded or failed: [extract_keypoints] reports failure
    in the dictionary it returns. *)
Lemma extract_pose_api_cleans_up (request : Request) (file : FileStorage)
    (w : World) :
  files_get "image" (files request) = Ret file ->
  filename file <> "" ->
  let temp_path := temp_name L "temp_" (clock L (reads w)) file in
  creatable L temp_path = true ->
  exists result w',
    extract_pose_api L request w = (Ret (jsonify result), w') /\
    fs w' = delete temp_path (fs w) /\
    fs w' !! temp_path = None.
Proof.
  intros Hg Hne temp_path Hc.
  unfold extract_pose_api, try_except.
  rewrite (files_contains_get _ _ _ Hg), Hg.
  unfold bind at 1, lift at 1.
  destruct (String.eqb_spec (filename file) "") as [|_]; [done|].
  unfold bind at 1. unfold datetime_now at 1. fold (tick w). fold temp_path.
  unfold bind at 1. unfold save, write_file. rewrite Hc.
  set (w2 := set_fs (<[temp_path := content file]> (fs (tick w))) (tick w)).
  destruct (extract_keypoints_run L temp_path w2) as (d & E & _).
  unfold bind at 1. rewrite E. unfold bind at 1, os_remove at 1.
  assert (Hl : fs (tick w2) !! temp_path = Some (content file))
    by apply lookup_insert_eq.
  rewrite Hl. eexists _, _. split; [reflexivity|]. simpl.
  rewrite delete_insert_eq. split; [reflexivity|]. apply lookup_delete_eq.
Qed.

(** [visualize_pose] on a file that is no image: [cv2.cvtColor] gets [None],
    the method raises, and the world is as before. *)
Lemma visualize_pose_no_image (path : string) (bs : list Byte.byte) (w : World) :
  fs w !! path = Some bs ->
  (forall image, cv2_imread_data L bs <> Ret (Some image)) ->
  exists e, visualize_pose L path None w = (Raise e, w).
Proof.
  intros Hf Hno. unfold visualize_pose, try_except, bind at 1, cv2_imread.
  rewrite Hf. destruct (cv2_imread_data L bs) as [[image|]|e].
  - by destruct (Hno image).
  - by eexists.
  - by eexists.
Qed.

End TempFiles.

(** C4 (the code leaks here). A [/visualize-pose] upload that is no image:
    the temporary input file is written, the visualizer raises, the handler
    answers 500, and the temporary file is still there when the request
    completes. *)
Theorem C4_visualize_leaks_temp_input (L : Libs) (request : Request)
    (file : FileStorage) (w : World) :
  files_get "image" (files request) = Ret file ->
  filename file <> "" ->
  creatable L (temp_name L "temp_input_" (clock L (reads w)) file) = true ->
  (forall image, cv2_imread_data L (content file) <> Ret (Some image)) ->
  exists resp w',
    visualize_pose_api L request w = (Ret resp, w') /\
    status resp = 500 /\
    fs w' !! temp_name L "temp_input_" (clock L (reads w)) file
      = Some (content file).
Proof.
  intros Hg Hne Hc Hno.
  set (temp_input := temp_name L "temp_input_" (clock L (reads w)) file) in *.
  unfold visualize_pose_api, try_except.
  rewrite (files_contains_get _ _ _ Hg), Hg. cbn [negb].
  unfold bind at 1, lift at 1.
  destruct (String.eqb_spec (filename file) "") as [|_]; [done|].
  unfold bind at 1. unfold datetime_now at 1. fold (tick w). fold temp_input.
  unfold bind at 1. unfold save, write_file. rewrite Hc.
  set (w2 := set_fs (<[temp_input := content file]> (fs (tick w))) (tick w)).
  assert (Hl : fs w2 !! temp_input = Some (content file)) by apply lookup_insert_eq.
  destruct (visualize_pose_no_image L temp_input _ w2 Hl Hno) as [e He].
  unfold bind at 1. rewrite He.
  eexists _, _. split; [reflexivity|]. split; [reflexivity|]. exact Hl.
Qed.

Definition toy_upload : Request :=
  mkRequest [("image", mkFile "notes.txt" [Byte.x00])] (Ret VNone).

Lemma C4_visualize_leaks_temp_input_witness :
  exists resp w',
    visualize_pose_api toy_libs toy_upload world0 = (Ret resp, w') /\
    status resp = 500 /\
    fs w' !! "temp_input_20240101_120000_notes.txt" = Some [Byte.x00].
Proof.
  apply (C4_visualize_leaks_temp_input toy_libs toy_upload
           (mkFile "notes.txt" [Byte.x00]) world0).
  - reflexivity.
  - discriminate.
  - reflexivity.
  - intros image. discriminate.
Defined.

(** ** The [/extract-pose] statuses *)

(** C7 (the code misses a case here). With no [image] part and a body that
    is JSON [null], or no JSON at all so that [request.json] is [None] or
    raises, the handler does not reach its 400 answer: it answers 500. *)
Theorem C7_no_image_no_json_is_500 (L : Libs) (w : World) (e : Exception) :
  (exists resp,
     extract_pose_api L (mkRequest [] (Ret VNone)) w = (Ret resp, tick w) /\
     status resp = 500 /\
     body resp !! "error"
       = Some (VStr "argument of type 'NoneType' is not iterable")) /\
  (exists resp,
     extract_pose_api L (mkRequest [] (Raise e)) w = (Ret resp, tick w) /\
     status resp = 500 /\
     body resp !! "error" = Some (VStr (exc_str e))).
Proof. split; eexists; (split; [reflexivity|]); split; reflexivity. Qed.

(** The answers the handler does give as the table of endpoints says. *)
Lemma extract_pose_api_statuses (L : Libs) (request : Request) (w : World) :
  (forall file,
     files_get "image" (files request) = Ret file -> filename file = "" ->
     exists resp, extract_pose_api L request w = (Ret resp, w) /\ status resp = 400) /\
  (forall d,
     files_contains "image" (files request) = false ->
     json request = Ret (VDict d) -> d !! "base64_image" = None ->
     exists resp, extract_pose_api L request w = (Ret resp, w) /\ status resp = 400) /\
  (forall d v,
     files_contains "image" (files request) = false ->
     json request = Ret (VDict d) -> d !! "base64_image" = Some v ->
     exists result,
       extract_keypoints_from_base64 L v w = (Ret result, tick w) /\
       extract_pose_api L request w = (Ret (jsonify result), tick w)) /\
  (forall file,
     files_get "image" (files request) = Ret file -> filename file <> "" ->
     creatable L (temp_name L "temp_" (clock L (reads w)) file) = false ->
     exists resp w',
       extract_pose_api L request w = (Ret resp, w') /\ status resp = 500 /\
       success_of (body resp) = Some false /\
       is_Some (body resp !! "error") /\ is_Some (body resp !! "timestamp")).
Proof.
  repeat split.
  - intros file Hg He. unfold extract_pose_api, try_except.
    rewrite (files_contains_get _ _ _ Hg), Hg. unfold bind, lift.
    rewrite He. by eexists.
  - intros d Hc Hj Hd. unfold extract_pose_api, try_except. rewrite Hc, Hj.
    unfold bind, lift, py_in. rewrite Hd. by eexists.
  - intros d v Hc Hj Hd.
    destruct (extract_keypoints_from_base64_run L v w) as (result & E & _).
    exists result. split; [exact E|].
    unfold extract_pose_api, try_except. rewrite Hc, Hj.
    unfold bind, lift, py_in, py_getitem. rewrite Hd. simpl.
    fold (bind (lift (Ret v)) (fun b => extract_keypoints_from_base64 L b)).
    unfold bind, lift. by rewrite E.
  - intros file Hg Hne Hc. unfold extract_pose_api, try_except.
    rewrite (files_contains_get _ _ _ Hg), Hg. unfold bind at 1, lift at 1.
    destruct (String.eqb_spec (filename file) "") as [|_]; [done|].
    unfold bind at 1. unfold datetime_now at 1.
    unfold bind at 1. unfold save, write_file. simpl reads. rewrite Hc.
    eexists _, _. split; [reflexivity|]. by repeat split.
Qed.

(** ** The command line *)

(** The world after one more printed line. *)
Definition printed (line : string) (w : World) : World :=
  mkWorld (fs w) (reads w) (stdout w ++ [line]).

Section Cli.

Variable L : Libs.
Variable app_run : string -> Z -> M unit.

(** The path [visualize_pose] chooses when it is given none. *)
Definition viz_name (image_path : string) (now : Z) : string :=
  "pose_visualization_" +:+ path_stem L image_path +:+ "_"
    +:+ strftime L now +:+ ".jpg".

(** The bytes [visualize_pose] writes for a file holding [bs]: decode,
    convert, run the model, draw the landmarks if any, encode. *)
Definition rendering (bs : list Byte.byte) (output_path : string)
  : Exc (list Byte.byte) :=
  match cv2_imread_data L bs with
  | Ret (Some image0) =>
      match cv2_cvtColor L image0 with
      | Ret rgb =>
          match pose_process L rgb with
          | Ret (Some landmarks) =>
              match draw_landmarks L image0 landmarks with
              | Ret image => cv2_imencode L output_path image
              | Raise e => Raise e
              end
          | Ret None => cv2_imencode L output_path image0
          | Raise e => Raise e
          end
      | Raise e => Raise e
      end
  | Ret None => Raise (cv2_cvtColor_none L)
  | Raise e => Raise e
  end.

Lemma visualize_pose_ok (path : string) (bs jpg : list Byte.byte) (w : World) :
  fs w !! path = Some bs ->
  let viz := viz_name path (clock L (reads w)) in
  rendering bs viz = Ret jpg ->
  creatable L viz = true ->
  visualize_pose L path None w = (Ret viz, set_fs (<[viz := jpg]> (fs w)) (tick w)).
Proof.
  intros Hf viz Hr Hc. unfold rendering in Hr.
  unfold visualize_pose, try_except, bind at 1, cv2_imread. rewrite Hf.
  destruct (cv2_imread_data L bs) as [[image0|]|e]; try discriminate.
  unfold bind at 1, lift at 1.
  destruct (cv2_cvtColor L image0) as [rgb|e]; try discriminate.
  unfold bind at 1, lift at 1.
  destruct (pose_process L rgb) as [[lms|]|e]; try discriminate.
  - unfold bind at 1, lift at 1.
    destruct (draw_landmarks L image0 lms) as [image|e]; try discriminate.
    cbn [truthy]. unfold bind at 1. unfold bind at 1. unfold datetime_now at 1.
    unfold ret at 1. fold (tick w). fold (viz_name path (clock L (reads w))). fold viz.
    unfold bind at 1. unfold cv2_imwrite, bind at 1, lift at 1.
    rewrite Hr, Hc. reflexivity.
  - unfold bind at 1, ret at 1.
    cbn [truthy]. unfold bind at 1. unfold bind at 1. unfold datetime_now at 1.
    unfold ret at 1. fold (tick w). fold (viz_name path (clock L (reads w))). fold viz.
    unfold bind at 1. unfold cv2_imwrite, bind at 1, lift at 1.
    rewrite Hr, Hc. reflexivity.
Qed.

(** The world after the JSON result has been put out: written to the
    output path, or printed. *)
Definition after_output (output : option string) (text : string) (w : World)
  : World :=
  if truthy output
  then printed ("Results saved to: " +:+ default "" output)
         (set_fs (<[default "" output := String.list_byte_of_string text]> (fs w)) w)
  else printed text w.

(** The command line run up to the visualization step, for an image file
    that exists. *)
Lemma main_cli_found (args : Args) (image : string) (w : World) :
  arg_mode args = cli ->
  arg_image args = Some image -> image <> "" ->
  is_Some (fs w !! image) ->
  (truthy (arg_output args) = true ->
   creatable L (default "" (arg_output args)) = true) ->
  exists result,
    let w1 := printed ("Processing image: " +:+ image) w in
    let w2 := after_output (arg_output args) (json_dumps L result) (tick w1) in
    extract_keypoints L image w1 = (Ret result, tick w1) /\
    main L app_run args w
    = if arg_visualize args
      then bind (visualize_pose L image None)
             (fun viz_path => print ("Visualization saved to: " +:+ viz_path)) w2
      else (Ret tt, w2).
Proof.
  intros Hm Hi Hne Hf Hc. unfold main. rewrite Hm, Hi. cbn [truthy].
  change (default "" (Some image)) with image.
  destruct (String.eqb_spec image "") as [|_]; [done|]. cbn [negb].
  unfold bind at 1, os_path_exists at 1.
  rewrite bool_decide_eq_true_2 by done. cbn [negb].
  unfold bind at 1, print at 1. fold (printed ("Processing image: " +:+ image) w).
  set (w1 := printed ("Processing image: " +:+ image) w).
  destruct (extract_keypoints_run L image w1) as (result & E & _).
  exists result. split; [exact E|].
  unfold bind at 1. rewrite E. unfold bind at 1. unfold after_output.
  destruct (truthy (arg_output args)) eqn:Ho.
  - unfold bind at 1, write_file at 1. rewrite (Hc eq_refl).
    unfold print at 1. destruct (arg_visualize args); reflexivity.
  - unfold print at 1. destruct (arg_visualize args); reflexivity.
Qed.

End Cli.

(** The visualization part of the command line claim as the specification
    states it: the run ends normally, a visualization file exists and its
    path is the last thing printed. *)
Definition cli_visualize_claim (L : Libs) (app_run : string -> Z -> M unit)
    (args : Args) (w : World) : Prop :=
  exists w' viz,
    main L app_run args w = (Ret tt, w') /\
    is_Some (fs w' !! viz) /\
    last (stdout w') = Some ("Visualization saved to: " +:+ viz).

Definition notes_world : World :=
  mkWorld {[ "notes.txt" := [Byte.x00] ]} 0 [].

Definition notes_args : Args :=
  mkArgs cli (Some "notes.txt") None true 5000 "0.0.0.0".

(** An existing file that is no image, with [--visualize]: the JSON result
    is printed, then [visualize_pose] raises and nothing catches it. *)
Lemma C8_counterexample :
  arg_mode notes_args = cli /\
  is_Some (fs notes_world !! "notes.txt") /\
  arg_visualize notes_args = true /\
  fst (main toy_libs toy_run notes_args notes_world)
  = Raise (mkExc "Exception"
      "Visualization failed: (-215:Assertion failed) !_src.empty() in function 'cvtColor'") /\
  ~ cli_visualize_claim toy_libs toy_run notes_args notes_world.
Proof.
  split; [reflexivity|]. split; [by eexists|]. split; [reflexivity|].
  split; [vm_compute; reflexivity|].
  intros (w' & viz & E & _). vm_compute in E. discriminate.
Qed.

(** C8 (amended). In CLI mode: without an image argument, or with one that
    names no existing file, the run prints one error line, changes nothing
    else and ends normally.  With an existing file it runs
    [extract_keypoints] once on that file and, provided an output path that
    is given can be written, writes the JSON text there (printing a
    confirmation) or else prints the JSON text; without [--visualize] it
    then ends normally; with [--visualize], provided the file still decodes
    and renders and the visualization file can be created, it writes the
    visualization and prints its path last. *)
Theorem C8_cli (L : Libs) (app_run : string -> Z -> M unit) (args : Args)
    (w : World) :
  arg_mode args = cli ->
  (truthy (arg_image args) = false ->
   main L app_run args w
   = (Ret tt, printed "Error: --image is required for CLI mode" w)) /\
  (forall image,
     arg_image args = Some image -> image <> "" -> fs w !! image = None ->
     main L app_run args w
     = (Ret tt, printed ("Error: Image file not found: " +:+ image) w)) /\
  (forall image,
     arg_image args = Some image -> image <> "" -> is_Some (fs w !! image) ->
     (truthy (arg_output args) = true ->
      creatable L (default "" (arg_output args)) = true) ->
     exists result,
       let w1 := printed ("Processing image: " +:+ image) w in
       let w2 := after_output (arg_output args) (json_dumps L result) (tick w1) in
       extract_keypoints L image w1 = (Ret result, tick w1) /\
       (arg_visualize args = false -> main L app_run args w = (Ret tt, w2)) /\
       (arg_visualize args = true ->
        forall bs jpg,
          fs w2 !! image = Some bs ->
          let viz := viz_name L image (clock L (reads w2)) in
          rendering L bs viz = Ret jpg ->
          creatable L viz = true ->
          main L app_run args w
          = (Ret tt, printed ("Visualization saved to: " +:+ viz)
                       (set_fs (<[viz := jpg]> (fs w2)) (tick w2))) /\
          cli_visualize_claim L app_run args w)).
Proof.
  intros Hm. split; [|split].
  - intros Ht. unfold main. rewrite Hm, Ht. reflexivity.
  - intros image Hi Hne Hf. unfold main. rewrite Hm, Hi. cbn [truthy].
    change (default "" (Some image)) with image.
    destruct (String.eqb_spec image "") as [|_]; [done|]. cbn [negb].
    unfold bind at 1, os_path_exists at 1. rewrite Hf. reflexivity.
  - intros image Hi Hne Hf Hc.
    destruct (main_cli_found L app_run args image w Hm Hi Hne Hf Hc)
      as (result & E & Hmain).
    exists result. intros w1 w2. cbv zeta in E, Hmain.
    fold w1 in E, Hmain. fold w2 in Hmain.
    split; [exact E|]. split.
    + intros Hv. by rewrite Hmain, Hv.
    + intros Hv bs jpg Hbs viz Hr Hcr. rewrite Hv in Hmain.
      assert (Hrun : main L app_run args w
                     = (Ret tt, printed ("Visualization saved to: " +:+ viz)
                                  (set_fs (<[viz := jpg]> (fs w2)) (tick w2)))).
      { rewrite Hmain. unfold bind at 1.
        rewrite (visualize_pose_ok L image bs jpg w2 Hbs Hr Hcr). reflexivity. }
      split; [exact Hrun|].
      unfold cli_visualize_claim. eexists _, viz. split; [exact Hrun|].
      split.
      * simpl. rewrite lookup_insert_eq. by eexists.
      * simpl. apply last_snoc.
Qed.

Definition photo_world : World :=
  mkWorld {[ "photo.jpg" := [Byte.x49; Byte.x50] ]} 0 [].

Definition photo_args : Args :=
  mkArgs cli (Some "photo.jpg") (Some "out.json") true 5000 "0.0.0.0".

Lemma C8_cli_witness :
  main toy_libs toy_run (mkArgs cli None None false 5000 "0.0.0.0") photo_world
  = (Ret tt, printed "Error: --image is required for CLI mode" photo_world) /\
  main toy_libs toy_run (mkArgs cli (Some "gone.jpg") None false 5000 "0.0.0.0")
    photo_world
  = (Ret tt, printed "Error: Image file not found: gone.jpg" photo_world) /\
  cli_visualize_claim toy_libs toy_run photo_args photo_world.
Proof.
  split; [|split].
  - apply (C8_cli toy_libs toy_run (mkArgs cli None None false 5000 "0.0.0.0")
             photo_world); reflexivity.
  - apply (C8_cli toy_libs toy_run
             (mkArgs cli (Some "gone.jpg") None false 5000 "0.0.0.0") photo_world
             eq_refl); [reflexivity|discriminate|reflexivity].
  - destruct (C8_cli toy_libs toy_run photo_args photo_world eq_refl)
      as (_ & _ & H).
    destruct (H "photo.jpg") as (result & E & _ & Hviz).
    + reflexivity.
    + discriminate.
    + by eexists.
    + reflexivity.
    + eapply (Hviz eq_refl [Byte.x49; Byte.x50] [Byte.x49; Byte.x50]).
      * vm_compute. reflexivity.
      * reflexivity.
      * reflexivity.
Defined.

(** * Further properties of the module *)

(** ** Keypoint names *)

(** The name of landmark [k] in closed form. *)
Definition name_of (k : nat) : string :=
  default ("UNKNOWN_" +:+ str_of_int (Z.of_nat k)) (keypoint_names !! k).

Lemma get_name_name_of (k : nat) :
  _get_keypoint_name (Z.of_nat k) = Ret (name_of k).
Proof.
  unfold name_of. destruct (keypoint_names !! k) as [s|] eqn:E.
  - by apply get_name_in_table.
  - apply get_name_overflow. apply lookup_ge_None in E.
    rewrite keypoint_names_length in E. lia.
Qed.

Lemma str_of_int_inj (i j : Z) : str_of_int i = str_of_int j -> i = j.
Proof.
  unfold str_of_int. intros H. apply DecimalZ.to_int_inj.
  assert (Hn : forall z, Z.to_int z <> Decimal.Pos Decimal.Nil /\
                         Z.to_int z <> Decimal.Neg Decimal.Nil).
  { intros [|p|p]; split; try discriminate; cbn; intros [= Hp];
      by apply DecimalPos.Unsigned.to_uint_nonnil in Hp. }
  apply (f_equal NilZero.int_of_string) in H.
  destruct (Hn i), (Hn j). rewrite !NilZero.isi in H by done. congruence.
Qed.

Lemma table_names_not_unknown (k : nat) (s : string) :
  keypoint_names !! k = Some s -> is_prefix "UNKNOWN_" s = false.
Proof.
  intros H. assert (Hk : (k < 33)%nat) by (by apply lookup_lt_Some in H).
  do 33 (destruct k as [|k]; [injection H as <-; reflexivity|]). lia.
Qed.

Lemma keypoint_names_NoDup : NoDup keypoint_names.
Proof. apply (bool_decide_unpack (NoDup keypoint_names)). vm_compute. exact I. Qed.

Lemma name_of_inj (i j : nat) : name_of i = name_of j -> i = j.
Proof.
  unfold name_of. intros H.
  destruct (keypoint_names !! i) as [s|] eqn:Ei,
           (keypoint_names !! j) as [t|] eqn:Ej; simpl in H.
  - subst t. by eapply NoDup_lookup; [apply keypoint_names_NoDup|..].
  - apply table_names_not_unknown in Ei. by rewrite H in Ei.
  - apply table_names_not_unknown in Ej. by rewrite <- H in Ej.
  - injection H as H. apply str_of_int_inj in H. lia.
Qed.

(** X1. The guard [idx < len(keypoint_names)] lets negative indices
    through to the list: an index from -33 to -1 names the landmark counted
    from the end of the table, and an index below -33 raises [IndexError]
    instead of giving an [UNKNOWN_] label. *)
Theorem get_keypoint_name_negative (i : Z) :
  (-33 <= i < 0 -> _get_keypoint_name i = _get_keypoint_name (i + 33)) /\
  (i < -33 ->
   _get_keypoint_name i = Raise (IndexError "list index out of range")).
Proof.
  unfold _get_keypoint_name, py_index. rewrite keypoint_names_length.
  change (Z.of_nat 33) with 33. cbv zeta.
  split; intros H.
  - assert (E1 : (i <? 33) = true) by (apply Z.ltb_lt; lia).
    assert (E2 : (i <? 0) = true) by (apply Z.ltb_lt; lia).
    assert (E3 : (i + 33 <? 33) = true) by (apply Z.ltb_lt; lia).
    assert (E4 : (i + 33 <? 0) = false) by (apply Z.ltb_ge; lia).
    rewrite E1, E2, E3, E4. cbv iota. rewrite E4. reflexivity.
  - assert (E1 : (i <? 33) = true) by (apply Z.ltb_lt; lia).
    assert (E2 : (i <? 0) = true) by (apply Z.ltb_lt; lia).
    assert (E3 : (i + 33 <? 0) = true) by (apply Z.ltb_lt; lia).
    rewrite E1, E2. cbv iota. rewrite E3. reflexivity.
Qed.

Lemma get_keypoint_name_negative_witness :
  _get_keypoint_name (-1) = Ret "RIGHT_FOOT_INDEX" /\
  _get_keypoint_name (-40) = Raise (IndexError "list index out of range").
Proof.
  split.
  - destruct (get_keypoint_name_negative (-1)) as [H _]. rewrite H by lia.
    reflexivity.
  - destruct (get_keypoint_name_negative (-40)) as [_ H]. apply H. lia.
Defined.

(** X2. No two indices from 0 on share a name: the 33 table names are
    pairwise distinct, none of them starts with UNKNOWN_, and the overflow
    labels differ with the index. *)
Theorem get_keypoint_name_injective (i j : Z) :
  0 <= i -> 0 <= j -> i <> j ->
  _get_keypoint_name i <> _get_keypoint_name j.
Proof.
  intros Hi Hj Hne. rewrite <- (Z2Nat.id i), <- (Z2Nat.id j) by lia.
  rewrite !get_name_name_of. intros [= H]. apply name_of_inj in H. lia.
Qed.

Lemma get_keypoint_name_injective_witness :
  _get_keypoint_name 33 <> _get_keypoint_name 330 /\
  _get_keypoint_name 5 <> _get_keypoint_name 2.
Proof. split; apply get_keypoint_name_injective; lia. Defined.

(** ** The result of an extraction in closed form *)

(** The keypoint dictionary of landmark [k]. *)
Definition keypoint_of (k : nat) (landmark : Landmark) : PyVal :=
  VDict (list_to_map [ ("id", VInt (Z.of_nat k));
                       ("name", VStr (name_of k));
                       ("x", VFloat (lm_x landmark));
                       ("y", VFloat (lm_y landmark));
                       ("z", VFloat (lm_z landmark));
                       ("visibility", VFloat (lm_visibility landmark)) ]).

Lemma keypoints_loop_exact (landmarks : list Landmark) :
  forall (idx : nat) (acc : list PyVal),
    keypoints_loop idx landmarks acc
    = Ret (acc ++ imap (fun i => keypoint_of (idx + i)) landmarks)%list.
Proof.
  induction landmarks as [|lm rest IH]; intros idx acc.
  - simpl. by rewrite app_nil_r.
  - cbn [keypoints_loop]. rewrite get_name_name_of, IH, imap_cons, <- app_assoc.
    simpl. rewrite Nat.add_0_r. do 3 f_equal.
    apply imap_ext. intros i x _. simpl. f_equal. lia.
Qed.

Section Exact.

Variable L : Libs.

(** What either method returns once it has a decoded image. *)
Definition image_result (image : Image) (w : World) : gmap string PyVal :=
  match cv2_cvtColor L image with
  | Raise e => error_dict L (exc_str e) w
  | Ret rgb =>
      match pose_process L rgb with
      | Raise e => error_dict L (exc_str e) w
      | Ret results =>
          success_dict L image w results (imap keypoint_of (default [] results))
      end
  end.

Definition decode_result (r : Exc (option Image)) (none_msg : string) (w : World)
  : gmap string PyVal :=
  match r with
  | Raise e => error_dict L (exc_str e) w
  | Ret None => error_dict L none_msg w
  | Ret (Some image) => image_result image w
  end.

Definition file_result (path : string) (w : World) : gmap string PyVal :=
  decode_result
    (match fs w !! path with
     | Some bs => cv2_imread_data L bs
     | None => Ret None
     end)
    ("Could not read image from " +:+ path) w.

Definition base64_result (base64_image : PyVal) (w : World) : gmap string PyVal :=
  match payload base64_image with
  | Raise e => error_dict L (exc_str e) w
  | Ret data =>
      match b64decode L data with
      | Raise e => error_dict L (exc_str e) w
      | Ret bs => decode_result (cv2_imdecode L bs) "Could not decode base64 image" w
      end
  end.

Lemma image_result_run (image : Image) (w : World) :
  try_except (keypoints_data_of L image) (error_result L) w
  = (Ret (image_result image w), tick w).
Proof.
  unfold try_except, keypoints_data_of, image_result, bind, lift, datetime_now, ret.
  destruct (cv2_cvtColor L image) as [rgb|e]; [|reflexivity].
  destruct (pose_process L rgb) as [[lms|]|e]; try reflexivity.
  rewrite keypoints_loop_exact. reflexivity.
Qed.

Lemma extract_keypoints_exact (path : string) (w : World) :
  extract_keypoints L path w = (Ret (file_result path w), tick w).
Proof.
  unfold extract_keypoints, extract_keypoints_try, file_result, decode_result.
  unfold try_except at 1, bind at 1, cv2_imread.
  destruct (fs w !! path) as [bs|]; [|reflexivity].
  destruct (cv2_imread_data L bs) as [[image|]|e]; try reflexivity.
  apply image_result_run.
Qed.

Lemma extract_keypoints_from_base64_exact (base64_image : PyVal) (w : World) :
  extract_keypoints_from_base64 L base64_image w
  = (Ret (base64_result base64_image w), tick w).
Proof.
  unfold extract_keypoints_from_base64, extract_keypoints_from_base64_try,
    base64_result, decode_result.
  unfold try_except at 1, bind at 1, lift at 1.
  destruct (payload base64_image) as [data|e]; [|reflexivity].
  unfold bind at 1, lift at 1.
  destruct (b64decode L data) as [bs|e]; [|reflexivity].
  unfold bind at 1, lift at 1.
  destruct (cv2_imdecode L bs) as [[image|]|e]; try reflexivity.
  apply image_result_run.
Qed.

End Exact.

(** Every produced dictionary is an error record or the success record of
    some image, in closed form. *)
Lemma produced_exact (L : Libs) (d : gmap string PyVal) :
  produced L d ->
  exists w,
    (exists msg, d = error_dict L msg w) \/
    (exists image rgb results,
       cv2_cvtColor L image = Ret rgb /\
       pose_process L rgb = Ret results /\
       d = success_dict L image w results (imap keypoint_of (default [] results))).
Proof.
  assert (Himg : forall image w,
            (exists msg, image_result L image w = error_dict L msg w) \/
            (exists image' rgb results,
               cv2_cvtColor L image' = Ret rgb /\
               pose_process L rgb = Ret results /\
               image_result L image w
               = success_dict L image' w results
                   (imap keypoint_of (default [] results)))).
  { intros image w. unfold image_result.
    destruct (cv2_cvtColor L image) as [rgb|e] eqn:Ec; [|by left; eexists].
    destruct (pose_process L rgb) as [results|e] eqn:Ep; [|by left; eexists].
    right. by exists image, rgb, results. }
  assert (Hdec : forall r msg w,
            (exists msg', decode_result L r msg w = error_dict L msg' w) \/
            (exists image' rgb results,
               cv2_cvtColor L image' = Ret rgb /\
               pose_process L rgb = Ret results /\
               decode_result L r msg w
               = success_dict L image' w results
                   (imap keypoint_of (default [] results)))).
  { intros [[image|]|e] msg w; simpl; [apply Himg|by left; eexists..]. }
  intros [path w w' H|v w w' H]; exists w.
  - rewrite extract_keypoints_exact in H. injection H as <- _. apply Hdec.
  - rewrite extract_keypoints_from_base64_exact in H. injection H as <- _.
    unfold base64_result.
    destruct (payload v) as [data|e]; [|by left; eexists].
    destruct (b64decode L data) as [bs|e]; [|by left; eexists].
    apply Hdec.
Qed.

Lemma keypoint_names_imap (landmarks : list Landmark) :
  keypoint_name <$> imap keypoint_of landmarks
  = (fun k => Some (name_of k)) <$> seq 0 (length landmarks).
Proof.
  rewrite fmap_imap. rewrite <- (imap_seq_0 landmarks (fun k => Some (name_of k))).
  apply imap_ext. intros i x _. reflexivity.
Qed.

(** X3. In every successful result of either method the k-th keypoint is
    named after index k (the table name, or UNKNOWN_k from 33 on, however
    many landmarks the model returns), and no two keypoints of a result
    share a name. *)
Theorem result_names_distinct (L : Libs) (d : gmap string PyVal) :
  produced L d ->
  success_of d = Some true ->
  exists kps,
    d !! "keypoints" = Some (VList kps) /\
    keypoint_name <$> kps = (fun k => Some (name_of k)) <$> seq 0 (length kps) /\
    NoDup (keypoint_name <$> kps).
Proof.
  intros Hp Hs. destruct (produced_exact L d Hp) as (w & [[msg ->]|H]); [discriminate|].
  destruct H as (image & rgb & results & _ & _ & ->).
  exists (imap keypoint_of (default [] results)).
  assert (Hn : results = None -> imap keypoint_of (default [] results) = [])
    by (by intros ->).
  destruct (success_dict_fields L image w results _ Hn) as (_ & _ & Hk & _).
  split; [exact Hk|]. rewrite keypoint_names_imap, length_imap.
  split; [reflexivity|]. apply NoDup_fmap_2; [|apply NoDup_seq].
  intros i j [= H]. by apply name_of_inj.
Qed.

Lemma result_names_distinct_witness :
  exists kps,
    toy_result !! "keypoints" = Some (VList kps) /\
    keypoint_name <$> kps = (fun k => Some (name_of k)) <$> seq 0 (length kps) /\
    NoDup (keypoint_name <$> kps).
Proof.
  apply (result_names_distinct toy_libs toy_result).
  - apply (from_base64 toy_libs toy_result (VStr "data:,IP") world0 (tick world0)).
    vm_compute. reflexivity.
  - vm_compute. reflexivity.
Defined.

(** X4. With a pose model that returns none or exactly 33 landmarks, a
    result that reports a detected pose names its keypoints NOSE,
    LEFT_EYE_INNER, ..., RIGHT_FOOT_INDEX: the 33-name table, in order. *)
Theorem result_names_are_table (L : Libs) (d : gmap string PyVal) :
  adapter_conformant L ->
  produced L d ->
  d !! "pose_detected" = Some (VBool true) ->
  exists kps,
    d !! "keypoints" = Some (VList kps) /\
    keypoint_name <$> kps = Some <$> spec_keypoint_table.
Proof.
  intros Hc Hp Hd. destruct (produced_exact L d Hp) as (w & [[msg ->]|H]); [discriminate|].
  destruct H as (image & rgb & results & _ & Hpp & ->).
  destruct results as [lms|]; [|discriminate].
  exists (imap keypoint_of lms). split; [reflexivity|].
  simpl default. rewrite keypoint_names_imap, (Hc _ _ Hpp). reflexivity.
Qed.

Lemma result_names_are_table_witness :
  exists kps,
    toy_result !! "keypoints" = Some (VList kps) /\
    keypoint_name <$> kps = Some <$> spec_keypoint_table.
Proof.
  apply (result_names_are_table toy_libs toy_result).
  - exact toy_conformant.
  - apply (from_base64 toy_libs toy_result (VStr "data:,IP") world0 (tick world0)).
    vm_compute. reflexivity.
  - vm_compute. reflexivity.
Defined.

(** X5. The file route on an image the codec reads and the model
    processes: the result has [success = true], the image's width, height
    and channel count, the detection flag, and one keypoint per landmark,
    the k-th holding id k, the name of k and the k-th landmark's x, y, z
    and visibility unchanged, and nothing else. *)
Theorem file_route_serializes_landmarks (L : Libs) (path : string)
    (bs : list Byte.byte) (image rgb : Image)
    (results : option (list Landmark)) (w : World) :
  fs w !! path = Some bs ->
  cv2_imread_data L bs = Ret (Some image) ->
  cv2_cvtColor L image = Ret rgb ->
  pose_process L rgb = Ret results ->
  exists d info kps,
    extract_keypoints L path w = (Ret d, tick w) /\
    d !! "success" = Some (VBool true) /\
    d !! "timestamp" = Some (VStr (isoformat L (clock L (reads w)))) /\
    d !! "pose_detected" = Some (VBool (bool_decide (is_Some results))) /\
    d !! "image_info" = Some (VDict info) /\
    info !! "width" = Some (VInt (img_width image)) /\
    info !! "height" = Some (VInt (img_height image)) /\
    info !! "channels" = Some (VInt (img_channels image)) /\
    d !! "keypoints" = Some (VList kps) /\
    length kps = length (default [] results) /\
    (forall k lm,
       default [] results !! k = Some lm ->
       exists kp,
         kps !! k = Some (VDict kp) /\
         kp !! "id" = Some (VInt (Z.of_nat k)) /\
         kp !! "name" = Some (VStr (name_of k)) /\
         kp !! "x" = Some (VFloat (lm_x lm)) /\
         kp !! "y" = Some (VFloat (lm_y lm)) /\
         kp !! "z" = Some (VFloat (lm_z lm)) /\
         kp !! "visibility" = Some (VFloat (lm_visibility lm)) /\
         dom kp = {[ "id"; "name"; "x"; "y"; "z"; "visibility" ]}).
Proof.
  intros Hf Hr Hc Hp.
  assert (Hn : results = None -> imap keypoint_of (default [] results) = [])
    by (by intros ->).
  destruct (success_dict_fields L image w results _ Hn) as (_ & Ht & Hk & Hd & _).
  exists (success_dict L image w results (imap keypoint_of (default [] results))).
  eexists _, (imap keypoint_of (default [] results)).
  split.
  { rewrite extract_keypoints_exact. unfold file_result, decode_result, image_result.
    by rewrite Hf, Hr, Hc, Hp. }
  split; [by destruct results|]. split; [exact Ht|]. split; [exact Hd|].
  split; [by destruct results|].
  split; [reflexivity|]. split; [reflexivity|]. split; [reflexivity|].
  split; [exact Hk|]. split; [apply length_imap|].
  intros k lm Hlm. eexists. split.
  { rewrite list_lookup_imap, Hlm. reflexivity. }
  repeat (split; [reflexivity|]).
  rewrite dom_list_to_map_L. simpl. set_solver.
Qed.

Definition photo_image : Image := mkImage 2 3 3 [Byte.x49; Byte.x50].

Lemma file_route_serializes_landmarks_witness :
  exists d, extract_keypoints toy_libs "photo.jpg" photo_world
            = (Ret d, tick photo_world) /\
            d !! "success" = Some (VBool true).
Proof.
  destruct (file_route_serializes_landmarks toy_libs "photo.jpg"
              [Byte.x49; Byte.x50] photo_image photo_image
              (Some (replicate 33 toy_landmark)) photo_world)
    as (d & info & kps & E & Hs & _).
  - vm_compute. reflexivity.
  - reflexivity.
  - reflexivity.
  - reflexivity.
  - exists d. by split.
Defined.

(** X6. The two routes agree: when the file behind a path and the payload
    of a base64 argument hold the same bytes, and the codec reads the same
    image from them on both routes, the two methods return the same
    dictionary. *)
Theorem routes_agree (L : Libs) (path : string) (base64_image : PyVal)
    (data : string) (bs : list Byte.byte) (image : Image) (w : World) :
  fs w !! path = Some bs ->
  payload base64_image = Ret data ->
  b64decode L data = Ret bs ->
  cv2_imread_data L bs = Ret (Some image) ->
  cv2_imdecode L bs = Ret (Some image) ->
  extract_keypoints L path w = extract_keypoints_from_base64 L base64_image w.
Proof.
  intros Hf Hp Hb Hr Hd.
  rewrite extract_keypoints_exact, extract_keypoints_from_base64_exact.
  unfold file_result, base64_result. by rewrite Hf, Hp, Hb, Hr, Hd.
Qed.

Lemma routes_agree_witness :
  extract_keypoints toy_libs "photo.jpg" photo_world
  = extract_keypoints_from_base64 toy_libs (VStr "data:image/jpeg;base64,IP")
      photo_world.
Proof.
  apply (routes_agree toy_libs "photo.jpg" (VStr "data:image/jpeg;base64,IP")
           "IP" [Byte.x49; Byte.x50] photo_image photo_world).
  - vm_compute. reflexivity.
  - reflexivity.
  - reflexivity.
  - reflexivity.
  - reflexivity.
Defined.

(** X7. The two shapes of a result: a success holds exactly the keys
    success, timestamp, image_info, keypoints and pose_detected; a failure
    holds exactly success, error and timestamp, so it has no keypoints and
    no pose_detected entry. *)
Theorem result_key_sets (L : Libs) (d : gmap string PyVal) :
  produced L d ->
  (success_of d = Some true /\
   dom d = {[ "success"; "timestamp"; "image_info"; "keypoints"; "pose_detected" ]}) \/
  (success_of d = Some false /\
   dom d = {[ "success"; "error"; "timestamp" ]}).
Proof.
  intros Hp. destruct (produced_exact L d Hp) as (w & [[msg ->]|H]).
  - right. split; [reflexivity|].
    unfold error_dict. rewrite dom_list_to_map_L. simpl. set_solver.
  - destruct H as (image & rgb & results & _ & _ & ->). left.
    unfold success_dict. destruct results as [lms|].
    + split; [reflexivity|]. rewrite dom_insert_L, dom_list_to_map_L. simpl. set_solver.
    + split; [reflexivity|]. rewrite dom_list_to_map_L. simpl. set_solver.
Qed.

Lemma result_key_sets_witness :
  (success_of toy_result = Some true /\
   dom toy_result
   = {[ "success"; "timestamp"; "image_info"; "keypoints"; "pose_detected" ]}) \/
  (success_of toy_result = Some false /\
   dom toy_result = {[ "success"; "error"; "timestamp" ]}).
Proof.
  apply (result_key_sets toy_libs toy_result).
  apply (from_base64 toy_libs toy_result (VStr "data:,IP") world0 (tick world0)).
  vm_compute. reflexivity.
Defined.

(** ** The [/extract-pose] handler *)

Lemma payload_not_str (v : PyVal) :
  (forall s, v <> VStr s) -> exists e, payload v = Raise e /\ exc_str e <> "".
Proof.
  intros Hv. unfold payload.
  destruct v as [|b|i|f|s|l|d]; simpl; try (by eexists).
  - by destruct (Hv s).
  - destruct (existsb (is_VStr ",") l); by eexists.
  - destruct (bool_decide (is_Some (d !! ","))); by eexists.
Qed.

(** X8. A [base64_image] that is not a JSON string (a number, a list, an
    object, null, ...) never reaches the decoder: the method returns a
    failure record with a non-empty error, and the handler sends that
    record with status 200. *)
Theorem non_string_base64_is_failure_200 (L : Libs) (request : Request)
    (body0 : gmap string PyVal) (v : PyVal) (w : World) :
  (forall s, v <> VStr s) ->
  files_contains "image" (files request) = false ->
  json request = Ret (VDict body0) ->
  body0 !! "base64_image" = Some v ->
  exists msg,
    msg <> "" /\
    extract_keypoints_from_base64 L v w = (Ret (error_dict L msg w), tick w) /\
    extract_pose_api L request w
    = (Ret (mkResponse 200 (error_dict L msg w)), tick w).
Proof.
  intros Hv Hc Hj Hb. destruct (payload_not_str v Hv) as (e & He & Hne).
  exists (exc_str e). split; [exact Hne|].
  assert (E : extract_keypoints_from_base64 L v w
              = (Ret (error_dict L (exc_str e) w), tick w)).
  { rewrite extract_keypoints_from_base64_exact. unfold base64_result.
    by rewrite He. }
  split; [exact E|].
  destruct (extract_pose_api_statuses L request w) as (_ & _ & H & _).
  destruct (H body0 v Hc Hj Hb) as (result & E' & ->).
  rewrite E in E'. by injection E' as <-.
Qed.

Lemma non_string_base64_is_failure_200_witness :
  exists msg,
    msg <> "" /\
    extract_keypoints_from_base64 toy_libs (VInt 5) world0
    = (Ret (error_dict toy_libs msg world0), tick world0) /\
    extract_pose_api toy_libs
      (mkRequest [] (Ret (VDict {[ "base64_image" := VInt 5 ]}))) world0
    = (Ret (mkResponse 200 (error_dict toy_libs msg world0)), tick world0).
Proof.
  apply (non_string_base64_is_failure_200 toy_libs
           (mkRequest [] (Ret (VDict {[ "base64_image" := VInt 5 ]})))
           {[ "base64_image" := VInt 5 ]} (VInt 5) world0).
  - intros s. discriminate.
  - reflexivity.
  - reflexivity.
  - reflexivity.
Defined.

(** X9. An upload with a file name whose temporary file can be written is
    always answered 200, whatever the bytes are: the body is the record of
    [extract_keypoints] for the temporary file (for bytes that are no image,
    the failure record whose error names the temporary path), the clock is
    read twice, nothing is printed, and afterwards the temporary path holds
    no file while every other path is as before. *)
Theorem upload_answered_200 (L : Libs) (request : Request) (file : FileStorage)
    (w : World) :
  files_get "image" (files request) = Ret file ->
  filename file <> "" ->
  let temp_path := temp_name L "temp_" (clock L (reads w)) file in
  creatable L temp_path = true ->
  exists w',
    extract_pose_api L request w
    = (Ret (mkResponse 200
              (decode_result L (cv2_imread_data L (content file))
                 ("Could not read image from " +:+ temp_path) (tick w))), w') /\
    fs w' = delete temp_path (fs w) /\
    stdout w' = stdout w /\
    reads w' = S (S (reads w)).
Proof.
  intros Hg Hne temp_path Hc.
  unfold extract_pose_api, try_except.
  rewrite (files_contains_get _ _ _ Hg), Hg.
  unfold bind at 1, lift at 1.
  destruct (String.eqb_spec (filename file) "") as [|_]; [done|].
  unfold bind at 1. unfold datetime_now at 1. fold (tick w). fold temp_path.
  unfold bind at 1. unfold save, write_file. rewrite Hc.
  set (w2 := set_fs (<[temp_path := content file]> (fs (tick w))) (tick w)).
  unfold bind at 1. rewrite extract_keypoints_exact.
  unfold bind at 1, os_remove at 1.
  assert (Hl : fs (tick w2) !! temp_path = Some (content file))
    by apply lookup_insert_eq.
  rewrite Hl. eexists. split.
  - unfold ret, jsonify, file_result. do 3 f_equal.
    assert (Hl2 : fs w2 !! temp_path = Some (content file)) by apply lookup_insert_eq.
    rewrite Hl2. reflexivity.
  - simpl. by rewrite delete_insert_eq.
Qed.

Lemma upload_answered_200_witness :
  exists w',
    extract_pose_api toy_libs toy_upload world0
    = (Ret (mkResponse 200
              (error_dict toy_libs
                 "Could not read image from temp_20240101_120000_notes.txt"
                 (tick world0))), w') /\
    fs w' = delete "temp_20240101_120000_notes.txt" (fs world0) /\
    stdout w' = stdout world0 /\
    reads w' = 2%nat.
Proof.
  apply (upload_answered_200 toy_libs toy_upload (mkFile "notes.txt" [Byte.x00])
           world0).
  - reflexivity.
  - discriminate.
  - reflexivity.
Defined.

(** X10. Only the first [image] part counts: two requests whose first
    [image] part is the same file get the same answer, whatever further
    parts and whatever JSON body they carry. *)
Theorem first_image_part_decides (L : Libs) (r1 r2 : Request)
    (file : FileStorage) (w : World) :
  files_get "image" (files r1) = Ret file ->
  files_get "image" (files r2) = Ret file ->
  extract_pose_api L r1 w = extract_pose_api L r2 w.
Proof.
  intros H1 H2. unfold extract_pose_api.
  rewrite (files_contains_get _ _ _ H1), (files_contains_get _ _ _ H2), H1, H2.
  reflexivity.
Qed.

Lemma first_image_part_decides_witness :
  extract_pose_api toy_libs toy_upload world0
  = extract_pose_api toy_libs
      (mkRequest [ ("other", mkFile "x" []);
                   ("image", mkFile "notes.txt" [Byte.x00]);
                   ("image", mkFile "photo.jpg" [Byte.x49; Byte.x50]) ]
                 (Ret (VDict {[ "base64_image" := VStr "IP" ]})))
      world0.
Proof.
  apply (first_image_part_decides toy_libs _ _ (mkFile "notes.txt" [Byte.x00]));
    reflexivity.
Defined.

(** X11. Without an [image] part, a JSON body that is not an object is
    answered by what Python's [in] makes of it: a list or a string that
    does not contain [base64_image] gets the 400 answer; a list holding
    that string, a string containing it, a number, a boolean or null gets
    500, because the membership test or the subscript raises. *)
Theorem non_object_body_status (L : Libs) (request : Request) (body0 : PyVal)
    (w : World) :
  files_contains "image" (files request) = false ->
  json request = Ret body0 ->
  (forall d, body0 <> VDict d) ->
  exists resp w',
    extract_pose_api L request w = (Ret resp, w') /\
    status resp = match py_in "base64_image" body0 with
                  | Ret false => 400
                  | _ => 500
                  end.
Proof.
  intros Hc Hj Hd. unfold extract_pose_api, try_except. rewrite Hc, Hj.
  unfold bind at 1, lift at 1. unfold bind at 1, lift at 1.
  destruct body0 as [|b|i|f|s|l|d]; unfold py_in; try (by eexists _, _).
  - destruct (is_substring "base64_image" s); by eexists _, _.
  - destruct (existsb (is_VStr "base64_image") l); by eexists _, _.
  - by destruct (Hd d).
Qed.

Lemma non_object_body_status_witness :
  (exists resp w',
     extract_pose_api toy_libs (mkRequest [] (Ret (VList [VStr "base64_image"]))) world0
     = (Ret resp, w') /\ status resp = 500) /\
  (exists resp w',
     extract_pose_api toy_libs (mkRequest [] (Ret (VList [VInt 1]))) world0
     = (Ret resp, w') /\ status resp = 400).
Proof.
  split.
  - apply (non_object_body_status toy_libs
             (mkRequest [] (Ret (VList [VStr "base64_image"])))
             (VList [VStr "base64_image"]) world0); [reflexivity..|discriminate].
  - apply (non_object_body_status toy_libs (mkRequest [] (Ret (VList [VInt 1])))
             (VList [VInt 1]) world0); [reflexivity..|discriminate].
Defined.

(** ** What every handler answers *)

(** The three kinds of answer: a 200, a 400 that carries only an [error]
    text, or a 500 with [success = false], [error] and [timestamp]. *)
Definition answer_shape (resp : Response) : Prop :=
  status resp = 200 \/
  (status resp = 400 /\ dom (body resp) = {[ "error" ]}) \/
  (status resp = 500 /\ success_of (body resp) = Some false /\
   is_Some (body resp !! "error") /\ is_Some (body resp !! "timestamp")).

(** Every value the statement can return satisfies [P]. *)
Definition returns_only {A} (P : A -> Prop) (m : M A) : Prop :=
  forall w a w', m w = (Ret a, w') -> P a.

Lemma returns_only_ret {A} (P : A -> Prop) (a : A) : P a -> returns_only P (ret a).
Proof. intros H w a' w' [= <- _]. exact H. Qed.

Lemma returns_only_bind {A B} (P : B -> Prop) (m : M A) (k : A -> M B) :
  (forall a, returns_only P (k a)) -> returns_only P (bind m k).
Proof.
  intros Hk w b w' H. unfold bind in H.
  destruct (m w) as [[a|e] w1]; [|discriminate]. by eapply Hk.
Qed.

Lemma returns_only_if {A} (P : A -> Prop) (c : bool) (m1 m2 : M A) :
  returns_only P m1 -> returns_only P m2 -> returns_only P (if c then m1 else m2).
Proof. by destruct c. Qed.

Section Answers.

Variable L : Libs.

Lemma shape_200 (d : gmap string PyVal) : answer_shape (jsonify d).
Proof. by left. Qed.

Lemma shape_400 (msg : string) :
  answer_shape (jsonify_status {[ "error" := VStr msg ]} 400).
Proof. right; left. split; [reflexivity|]. simpl. apply dom_singleton_L. Qed.

(** A handler is its [try] block under the catch-all branch. *)
Lemma handler_answers (m : M Response) (w : World) :
  returns_only answer_shape m ->
  exists resp w',
    try_except m (error_response L) w = (Ret resp, w') /\ answer_shape resp.
Proof.
  intros Hm. unfold try_except. destruct (m w) as [[resp|e] w1] eqn:E.
  - exists resp, w1. split; [reflexivity|]. by eapply Hm.
  - eexists _, _. split; [reflexivity|]. right; right. by repeat split.
Qed.

(** X12. No handler lets an exception out, and every answer has one of
    three forms: status 200; status 400 with a body holding only [error];
    or status 500 with [success = false], an [error] and a [timestamp].
    The health check always answers 200 with [status = healthy]. *)
Theorem handlers_always_answer (request : Request) (w : World) :
  (exists resp w',
     extract_pose_api L request w = (Ret resp, w') /\ answer_shape resp) /\
  (exists resp w',
     visualize_pose_api L request w = (Ret resp, w') /\ answer_shape resp) /\
  (exists resp w',
     batch_extract_api L request w = (Ret resp, w') /\ answer_shape resp) /\
  (exists resp,
     health_check L w = (Ret resp, tick w) /\ status resp = 200 /\
     body resp !! "status" = Some (VStr "healthy")).
Proof.
  split; [|split; [|split]].
  - apply handler_answers. apply returns_only_if.
    + apply returns_only_bind. intros file. apply returns_only_if.
      * apply returns_only_ret, shape_400.
      * do 4 (apply returns_only_bind; intros ?). apply returns_only_ret, shape_200.
    + do 2 (apply returns_only_bind; intros ?). apply returns_only_if.
      * do 2 (apply returns_only_bind; intros ?). apply returns_only_ret, shape_200.
      * apply returns_only_ret, shape_400.
  - apply handler_answers. apply returns_only_if.
    + apply returns_only_ret, shape_400.
    + apply returns_only_bind. intros file. apply returns_only_if.
      * apply returns_only_ret, shape_400.
      * do 7 (apply returns_only_bind; intros ?). apply returns_only_ret, shape_200.
  - apply handler_answers. apply returns_only_if.
    + apply returns_only_ret, shape_400.
    + do 2 (apply returns_only_bind; intros ?). apply returns_only_ret, shape_200.
  - by eexists.
Qed.

End Answers.

(** ** Temporary files of [/extract-pose] and [/batch-extract] *)

(** The statement never adds a file and never changes one. *)
Definition fs_within {A} (m : M A) : Prop :=
  forall w r w', m w = (r, w') -> fs w' ⊆ fs w.

Lemma fs_within_ret {A} (a : A) : fs_within (ret a).
Proof. by intros w r w' [= _ <-]. Qed.

Lemma fs_within_lift {A} (r : Exc A) : fs_within (lift r).
Proof. by intros w r' w' [= _ <-]. Qed.

Lemma fs_within_bind {A B} (m : M A) (k : A -> M B) :
  fs_within m -> (forall a, fs_within (k a)) -> fs_within (bind m k).
Proof.
  intros Hm Hk w r w' H. unfold bind in H.
  destruct (m w) as [[a|e] w1] eqn:E.
  - etrans; [by eapply Hk|by eapply Hm].
  - injection H as _ <-. by eapply Hm.
Qed.

Lemma fs_within_try {A} (m : M A) (h : Exception -> M A) :
  fs_within m -> (forall e, fs_within (h e)) -> fs_within (try_except m h).
Proof.
  intros Hm Hh w r w' H. unfold try_except in H.
  destruct (m w) as [[a|e] w1] eqn:E.
  - injection H as _ <-. by eapply Hm.
  - etrans; [by eapply Hh|by eapply Hm].
Qed.

Lemma fs_within_if {A} (c : bool) (m1 m2 : M A) :
  fs_within m1 -> fs_within m2 -> fs_within (if c then m1 else m2).
Proof. by destruct c. Qed.

Section NoLeak.

Variable L : Libs.

Lemma fs_within_now : fs_within (datetime_now L).
Proof. by intros w r w' [= _ <-]. Qed.

Lemma fs_within_error_response (e : Exception) : fs_within (error_response L e).
Proof. by intros w r w' [= _ <-]. Qed.

Lemma fs_within_base64 (v : PyVal) : fs_within (extract_keypoints_from_base64 L v).
Proof.
  intros w r w' H. rewrite extract_keypoints_from_base64_exact in H.
  by injection H as _ <-.
Qed.

(** Writes that fail do so before the file exists. *)
Definition clean_write_failures : Prop :=
  forall p bs, creatable L p = false -> write_residue L p bs = None.

(** Save, extract, remove: the block both handlers share. *)
Lemma fs_within_temp {A} (file : FileStorage) (temp_path : string)
    (k : gmap string PyVal -> M A) :
  clean_write_failures ->
  (forall result, fs_within (k result)) ->
  fs_within (bind (save L file temp_path) (fun _ =>
             bind (extract_keypoints L temp_path) (fun result =>
             bind (os_remove temp_path) (fun _ => k result)))).
Proof.
  intros Hclean Hk w r w' H. unfold bind at 1, save, write_file in H.
  destruct (creatable L temp_path) eqn:Hc.
  2:{ injection H as _ <-. unfold failed_write. by rewrite (Hclean _ _ Hc). }
  unfold bind at 1 in H. rewrite extract_keypoints_exact in H.
  unfold bind at 1, os_remove at 1 in H.
  assert (Hl : forall v, fs (tick (set_fs (<[temp_path := v]> (fs w)) w)) !! temp_path
                         = Some v) by (intros v; apply lookup_insert_eq).
  rewrite Hl in H. apply Hk in H. etrans; [exact H|].
  simpl. rewrite delete_insert_eq. apply delete_subseteq.
Qed.

Lemma fs_within_batch_loop (fl : list FileStorage) :
  clean_write_failures ->
  forall results, fs_within (batch_loop L fl results).
Proof.
  intros Hclean.
  induction fl as [|file rest IH]; intros results; [apply fs_within_ret|].
  cbn [batch_loop]. apply fs_within_if; [apply IH|].
  apply fs_within_bind; [apply fs_within_now|]. intros now.
  apply (fs_within_temp file _ (fun result => batch_loop L rest _) Hclean).
  intros result. apply IH.
Qed.

(** X13. As long as a failing write of a temporary file fails before the
    file exists, [/extract-pose] and [/batch-extract] leave no file behind:
    whatever the request and however it ends (200, 400 or 500), every file
    present afterwards was present before with the same contents.  (A file
    that already had the name of a temporary file is gone.)  But a
    [file.save] that fails after it has opened the file is not cleaned up:
    the handler answers 500 and the partial temporary file stays. *)
Theorem no_file_left_behind (request : Request) (w : World) :
  (clean_write_failures ->
   fs (snd (extract_pose_api L request w)) ⊆ fs w /\
   fs (snd (batch_extract_api L request w)) ⊆ fs w) /\
  (forall file part,
     files_get "image" (files request) = Ret file ->
     filename file <> "" ->
     let temp_path := temp_name L "temp_" (clock L (reads w)) file in
     creatable L temp_path = false ->
     write_residue L temp_path (content file) = Some part ->
     exists resp w',
       extract_pose_api L request w = (Ret resp, w') /\
       status resp = 500 /\
       fs w' !! temp_path = Some part).
Proof.
  split.
  - intros Hclean. split.
    + assert (H : fs_within (extract_pose_api L request)).
      { apply fs_within_try; [|apply fs_within_error_response].
        apply fs_within_if.
        - apply fs_within_bind; [apply fs_within_lift|]. intros file.
          apply fs_within_if; [apply fs_within_ret|].
          apply fs_within_bind; [apply fs_within_now|]. intros now.
          apply (fs_within_temp file _ (fun result => ret (jsonify result)) Hclean).
          intros result. apply fs_within_ret.
        - apply fs_within_bind; [apply fs_within_lift|]. intros body0.
          apply fs_within_bind; [apply fs_within_lift|]. intros has.
          apply fs_within_if; [|apply fs_within_ret].
          apply fs_within_bind; [apply fs_within_lift|]. intros v.
          apply fs_within_bind; [apply fs_within_base64|]. intros result.
          apply fs_within_ret. }
      destruct (extract_pose_api L request w) as [r w'] eqn:E. by eapply H.
    + assert (H : fs_within (batch_extract_api L request)).
      { apply fs_within_try; [|apply fs_within_error_response].
        apply fs_within_if; [apply fs_within_ret|].
        apply fs_within_bind; [by apply fs_within_batch_loop|]. intros results.
        apply fs_within_bind; [apply fs_within_now|]. intros now.
        apply fs_within_ret. }
      destruct (batch_extract_api L request w) as [r w'] eqn:E. by eapply H.
  - intros file part Hg Hne temp_path Hc Hres.
    unfold extract_pose_api, try_except.
    rewrite (files_contains_get _ _ _ Hg), Hg. unfold bind at 1, lift at 1.
    destruct (String.eqb_spec (filename file) "") as [|_]; [done|].
    unfold bind at 1. unfold datetime_now at 1. fold (tick w). fold temp_path.
    unfold bind at 1. unfold save, write_file. rewrite Hc.
    unfold failed_write. rewrite Hres.
    eexists _, _. split; [reflexivity|]. split; [reflexivity|].
    simpl. apply lookup_insert_eq.
Qed.

End NoLeak.

(** The toy instance with a disk that fills up: a write to a path with a
    slash fails after the first byte. *)
Definition leaky_libs : Libs := {|
  cv2_imread_data := cv2_imread_data toy_libs;
  cv2_imdecode := cv2_imdecode toy_libs;
  cv2_cvtColor := cv2_cvtColor toy_libs;
  cv2_imencode := cv2_imencode toy_libs;
  pose_process := pose_process toy_libs;
  draw_landmarks := draw_landmarks toy_libs;
  b64decode := b64decode toy_libs;
  b64encode := b64encode toy_libs;
  clock := clock toy_libs;
  isoformat := isoformat toy_libs;
  strftime := strftime toy_libs;
  creatable := creatable toy_libs;
  write_error := fun _ => OSError "[Errno 28] No space left on device";
  write_residue := fun _ bs => Some (take 1 bs);
  cv2_cvtColor_none := cv2_cvtColor_none toy_libs;
  json_dumps := json_dumps toy_libs;
  path_stem := path_stem toy_libs
|}.

Definition full_disk_upload : Request :=
  mkRequest [("image", mkFile "a/b.jpg" [Byte.x49; Byte.x50])] (Ret VNone).

Lemma toy_clean_write_failures : clean_write_failures toy_libs.
Proof. intros p bs _. reflexivity. Qed.

Lemma no_file_left_behind_witness :
  (fs (snd (extract_pose_api toy_libs toy_upload junk_world)) ⊆ fs junk_world /\
   fs (snd (batch_extract_api toy_libs toy_batch junk_world)) ⊆ fs junk_world) /\
  (exists resp w',
     extract_pose_api leaky_libs full_disk_upload world0 = (Ret resp, w') /\
     status resp = 500 /\
     fs w' !! "temp_20240101_120000_a/b.jpg" = Some [Byte.x49]).
Proof.
  split; [split|].
  - destruct (no_file_left_behind toy_libs toy_upload junk_world) as [H _].
    destruct (H toy_clean_write_failures) as [H1 _]. exact H1.
  - destruct (no_file_left_behind toy_libs toy_batch junk_world) as [H _].
    destruct (H toy_clean_write_failures) as [_ H2]. exact H2.
  - destruct (no_file_left_behind leaky_libs full_disk_upload world0) as [_ H].
    exact (H (mkFile "a/b.jpg" [Byte.x49; Byte.x50]) [Byte.x49]
             eq_refl ltac:(discriminate) eq_refl eq_refl).
Defined.

(** ** The batch handler is all or nothing *)

Lemma batch_loop_fails (L : Libs) (f : FileStorage) (fl : list FileStorage) :
  f ∈ attempted fl ->
  (forall now, creatable L (temp_name L "temp_" now f) = false) ->
  forall results w, exists e w', batch_loop L fl results w = (Raise e, w').
Proof.
  intros Hf Hc. induction fl as [|file rest IH]; intros results w.
  - by apply elem_of_nil in Hf.
  - unfold attempted in Hf. destruct (decide (filename file = "")) as [He|Hne].
    + rewrite batch_loop_skip by done. apply IH.
      by rewrite filter_cons_False in Hf by (by intros ?).
    + destruct (batch_loop_step L file rest results w Hne) as (r & w1 & _ & _ & _ & E).
      rewrite E. destruct (creatable L _) eqn:Ec; [|by eexists _, _].
      apply IH. rewrite filter_cons_True in Hf by done.
      apply elem_of_cons in Hf as [->|Hf]; [|exact Hf].
      by rewrite Hc in Ec.
Qed.

(** X14. If the temporary file of a single named upload cannot be created,
    the whole batch is answered 500 with no [results] and no
    [total_processed]: the records of the uploads processed before it are
    dropped. *)
Theorem batch_all_or_nothing (L : Libs) (request : Request) (f : FileStorage)
    (w : World) :
  f ∈ attempted (files_getlist "images" (files request)) ->
  (forall now, creatable L (temp_name L "temp_" now f) = false) ->
  exists resp w',
    batch_extract_api L request w = (Ret resp, w') /\
    status resp = 500 /\
    body resp !! "results" = None /\
    body resp !! "total_processed" = None.
Proof.
  intros Hf Hc. unfold batch_extract_api, try_except, bind at 1.
  assert (Hne : files_contains "images" (files request) = true).
  { apply bool_decide_eq_true_2. intros Hnil. rewrite Hnil in Hf.
    by apply elem_of_nil in Hf. }
  rewrite Hne. cbn [negb]. unfold bind at 1.
  destruct (batch_loop_fails L f _ Hf Hc [] w) as (e & w1 & ->).
  by eexists _, _.
Qed.

Definition mixed_batch : Request :=
  mkRequest [ ("images", mkFile "a.jpg" [Byte.x49; Byte.x50]);
              ("images", mkFile "dir/b.jpg" [Byte.x49]) ]
            (Ret VNone).

Lemma batch_all_or_nothing_witness :
  exists resp w',
    batch_extract_api toy_libs mixed_batch world0 = (Ret resp, w') /\
    status resp = 500 /\
    body resp !! "results" = None /\
    body resp !! "total_processed" = None.
Proof.
  apply (batch_all_or_nothing toy_libs mixed_batch (mkFile "dir/b.jpg" [Byte.x49])).
  - vm_compute. apply list_elem_of_In. right. left. reflexivity.
  - intros now. reflexivity.
Defined.

(** ** The visualizer *)

Section Visualizer.

Variable L : Libs.

(** The path the visualization goes to: the one given, or the generated
    name. *)
Definition chosen_output (path : string) (output_path : option string)
    (w : World) : string :=
  if truthy output_path then default "" output_path
  else viz_name L path (clock L (reads w)).

(** The library calls of [visualize_pose], in order, on the file behind
    [path]: what they produce, or the error of the first one that fails. *)
Definition visualize_attempt (path : string) (output_path : option string)
    (w : World) : Exc (list Byte.byte) :=
  match fs w !! path with
  | Some bs => rendering L bs (chosen_output path output_path w)
  | None => Raise (cv2_cvtColor_none L)
  end.

(** [Exception(f"Visualization failed: {str(e)}")] *)
Definition wrapped (cause : Exception) : Exception :=
  mkExc "Exception" ("Visualization failed: " +:+ exc_str cause).

(** [visualize_pose] in closed form. *)
Lemma visualize_pose_run (path : string) (output_path : option string)
    (w : World) :
  exists w1,
    fs w1 = fs w /\ stdout w1 = stdout w /\
    visualize_pose L path output_path w
    = match visualize_attempt path output_path w with
      | Raise cause => (Raise (wrapped cause), w1)
      | Ret jpg =>
          (Ret (chosen_output path output_path w),
           if creatable L (chosen_output path output_path w)
           then set_fs (<[chosen_output path output_path w := jpg]> (fs w1)) w1
           else w1)
      end.
Proof.
  unfold visualize_attempt, rendering, chosen_output, viz_name.
  unfold visualize_pose, try_except, bind at 1, cv2_imread.
  destruct (fs w !! path) as [bs|]; [|by exists w].
  destruct (cv2_imread_data L bs) as [[image0|]|e]; [|by exists w..].
  unfold bind at 1, lift at 1.
  destruct (cv2_cvtColor L image0) as [rgb|e]; [|by exists w].
  unfold bind at 1, lift at 1.
  destruct (pose_process L rgb) as [[lms|]|e]; [| |by exists w].
  - unfold bind at 1, lift at 1.
    destruct (draw_landmarks L image0 lms) as [image|e]; [|by exists w].
    unfold bind at 1. destruct (truthy output_path).
    + unfold ret at 1. unfold bind at 1, cv2_imwrite, bind at 1, lift at 1.
      destruct (cv2_imencode L _ image) as [jpg|e]; [|by exists w].
      exists w. by destruct (creatable L _).
    + unfold bind at 1, datetime_now at 1, ret at 1.
      unfold bind at 1, cv2_imwrite, bind at 1, lift at 1.
      destruct (cv2_imencode L _ image) as [jpg|e]; [|by exists (tick w)].
      exists (tick w). by destruct (creatable L _).
  - unfold bind at 1, ret at 1.
    unfold bind at 1. destruct (truthy output_path).
    + unfold ret at 1. unfold bind at 1, cv2_imwrite, bind at 1, lift at 1.
      destruct (cv2_imencode L _ image0) as [jpg|e]; [|by exists w].
      exists w. by destruct (creatable L _).
    + unfold bind at 1, datetime_now at 1, ret at 1.
      unfold bind at 1, cv2_imwrite, bind at 1, lift at 1.
      destruct (cv2_imencode L _ image0) as [jpg|e]; [|by exists (tick w)].
      exists (tick w). by destruct (creatable L _).
Qed.

(** X15. [visualize_pose] fails exactly when one of its library calls
    does (reading the file, the colour conversion, the model, the drawing,
    the encoding).  It then raises a plain [Exception] whose text is
    "Visualization failed: " followed by [str] of the error of the first
    call that failed, and it has written no file and printed nothing. *)
Theorem visualize_pose_failure (path : string) (output_path : option string)
    (w : World) :
  (forall e w',
     visualize_pose L path output_path w = (Raise e, w') ->
     exists cause,
       visualize_attempt path output_path w = Raise cause /\
       e = mkExc "Exception" ("Visualization failed: " +:+ exc_str cause) /\
       fs w' = fs w /\ stdout w' = stdout w) /\
  (forall cause,
     visualize_attempt path output_path w = Raise cause ->
     fst (visualize_pose L path output_path w)
     = Raise (mkExc "Exception" ("Visualization failed: " +:+ exc_str cause))).
Proof.
  destruct (visualize_pose_run path output_path w) as (w1 & Hf & Hs & E).
  split.
  - intros e w' H. rewrite E in H.
    destruct (visualize_attempt path output_path w) as [jpg|cause]; [discriminate|].
    injection H as <- <-. by exists cause.
  - intros cause H. by rewrite E, H.
Qed.

(** X16. Given an output path, [visualize_pose] returns that very path
    without reading the clock.  The file there holds the rendering when it
    can be created; when it cannot, the method still returns the path and
    writes nothing, because the result of [cv2.imwrite] is not looked at. *)
Theorem visualize_pose_given_path (path output : string)
    (bs jpg : list Byte.byte) (w : World) :
  output <> "" ->
  fs w !! path = Some bs ->
  rendering L bs output = Ret jpg ->
  visualize_pose L path (Some output) w
  = (Ret output, if creatable L output
                 then set_fs (<[output := jpg]> (fs w)) w
                 else w).
Proof.
  intros Hne Hf Hr. unfold rendering in Hr.
  unfold visualize_pose, try_except, bind at 1, cv2_imread. rewrite Hf.
  destruct (cv2_imread_data L bs) as [[image0|]|e]; try discriminate.
  unfold bind at 1, lift at 1.
  destruct (cv2_cvtColor L image0) as [rgb|e]; try discriminate.
  unfold bind at 1, lift at 1.
  cbn [truthy]. destruct (String.eqb_spec output "") as [|_]; [done|]. cbn [negb].
  change (default "" (Some output)) with output.
  destruct (pose_process L rgb) as [[lms|]|e]; try discriminate.
  - unfold bind at 1, lift at 1.
    destruct (draw_landmarks L image0 lms) as [image|e]; try discriminate.
    unfold bind at 1, ret at 1. unfold bind at 1, cv2_imwrite, bind at 1, lift at 1.
    rewrite Hr. by destruct (creatable L output).
  - unfold bind at 1, ret at 1.
    unfold bind at 1, ret at 1. unfold bind at 1, cv2_imwrite, bind at 1, lift at 1.
    rewrite Hr. by destruct (creatable L output).
Qed.

End Visualizer.

Lemma visualize_pose_failure_witness :
  fst (visualize_pose toy_libs "notes.txt" None notes_world)
  = Raise (mkExc "Exception"
             ("Visualization failed: " +:+ exc_str (cv2_cvtColor_none toy_libs))) /\
  exists cause,
    visualize_attempt toy_libs "gone.jpg" (Some "out.jpg") notes_world = Raise cause /\
    fs (snd (visualize_pose toy_libs "gone.jpg" (Some "out.jpg") notes_world))
    = fs notes_world.
Proof.
  split.
  - destruct (visualize_pose_failure toy_libs "notes.txt" None notes_world) as [_ H].
    apply (H (cv2_cvtColor_none toy_libs)). vm_compute. reflexivity.
  - destruct (visualize_pose_failure toy_libs "gone.jpg" (Some "out.jpg") notes_world)
      as [H _].
    destruct (H (mkExc "Exception"
                   ("Visualization failed: " +:+ exc_str (cv2_cvtColor_none toy_libs)))
                notes_world) as (cause & Hc & _ & Hfs & _).
    + vm_compute. reflexivity.
    + exists cause. split; [exact Hc|]. vm_compute. reflexivity.
Defined.

Lemma visualize_pose_given_path_witness :
  visualize_pose toy_libs "photo.jpg" (Some "out/viz.jpg") photo_world
  = (Ret "out/viz.jpg", photo_world) /\
  visualize_pose toy_libs "photo.jpg" (Some "viz.jpg") photo_world
  = (Ret "viz.jpg",
     set_fs (<["viz.jpg" := [Byte.x49; Byte.x50]]> (fs photo_world)) photo_world).
Proof.
  split.
  - apply (visualize_pose_given_path toy_libs "photo.jpg" "out/viz.jpg"
             [Byte.x49; Byte.x50] [Byte.x49; Byte.x50] photo_world).
    + discriminate.
    + vm_compute. reflexivity.
    + reflexivity.
  - apply (visualize_pose_given_path toy_libs "photo.jpg" "viz.jpg"
             [Byte.x49; Byte.x50] [Byte.x49; Byte.x50] photo_world).
    + discriminate.
    + vm_compute. reflexivity.
    + reflexivity.
Defined.

(** ** [/visualize-pose] when nothing fails *)

(** X17. An upload that renders, with both files creatable: the handler
    answers 200 with the data URL of the base64 text of the rendering, the
    clock is read three times, and afterwards neither the temporary input
    nor the visualization file exists, all other files being as before. *)
Theorem visualize_pose_api_success (L : Libs) (request : Request)
    (file : FileStorage) (jpg : list Byte.byte) (w : World) :
  files_get "image" (files request) = Ret file ->
  filename file <> "" ->
  let temp_input := temp_name L "temp_input_" (clock L (reads w)) file in
  let viz := viz_name L temp_input (clock L (S (reads w))) in
  creatable L temp_input = true ->
  rendering L (content file) viz = Ret jpg ->
  creatable L viz = true ->
  exists resp w',
    visualize_pose_api L request w = (Ret resp, w') /\
    status resp = 200 /\
    body resp !! "success" = Some (VBool true) /\
    body resp !! "visualization"
      = Some (VStr ("data:image/jpeg;base64," +:+ b64encode L jpg)) /\
    fs w' = delete viz (delete temp_input (fs w)) /\
    fs w' !! temp_input = None /\ fs w' !! viz = None /\
    reads w' = S (S (S (reads w))).
Proof.
  intros Hg Hne temp_input viz Hc Hr Hcv.
  assert (Hdiff : temp_input <> viz).
  { unfold temp_input, viz, viz_name, temp_name. simpl. discriminate. }
  unfold visualize_pose_api, try_except.
  rewrite (files_contains_get _ _ _ Hg), Hg. cbn [negb].
  unfold bind at 1, lift at 1.
  destruct (String.eqb_spec (filename file) "") as [|_]; [done|].
  unfold bind at 1. unfold datetime_now at 1. fold (tick w). fold temp_input.
  unfold bind at 1. unfold save, write_file. rewrite Hc.
  set (w2 := set_fs (<[temp_input := content file]> (fs (tick w))) (tick w)).
  assert (Hl : fs w2 !! temp_input = Some (content file)) by apply lookup_insert_eq.
  unfold bind at 1.
  rewrite (visualize_pose_ok L temp_input (content file) jpg w2 Hl Hr Hcv).
  change (viz_name L temp_input (clock L (reads w2))) with viz.
  set (w3 := set_fs (<[viz := jpg]> (fs w2)) (tick w2)).
  unfold bind at 1, read_binary at 1.
  assert (Hv : fs w3 !! viz = Some jpg) by apply lookup_insert_eq.
  rewrite Hv. unfold bind at 1, os_remove at 1.
  assert (Ht : fs w3 !! temp_input = Some (content file)).
  { unfold w3. simpl. rewrite lookup_insert_ne by done. apply lookup_insert_eq. }
  rewrite Ht. unfold bind at 1, os_remove at 1.
  assert (Hv' : fs (set_fs (delete temp_input (fs w3)) w3) !! viz = Some jpg).
  { simpl. rewrite lookup_delete_ne by done. apply lookup_insert_eq. }
  rewrite Hv'. eexists _, _. split; [reflexivity|].
  split; [reflexivity|]. split; [reflexivity|]. split; [reflexivity|].
  assert (Hfs : delete viz (delete temp_input
                  (<[viz := jpg]> (<[temp_input := content file]> (fs w))))
                = delete viz (delete temp_input (fs w))).
  { apply map_eq. intros k.
    destruct (decide (k = viz)) as [->|Hk1]; [by rewrite !lookup_delete_eq|].
    rewrite !(lookup_delete_ne _ viz) by done.
    destruct (decide (k = temp_input)) as [->|Hk2]; [by rewrite !lookup_delete_eq|].
    rewrite !(lookup_delete_ne _ temp_input) by done.
    by rewrite !lookup_insert_ne by done. }
  simpl. rewrite Hfs. split; [reflexivity|]. split; [|split; [|reflexivity]].
  - rewrite lookup_delete_ne by done. apply lookup_delete_eq.
  - apply lookup_delete_eq.
Qed.

Definition photo_upload : Request :=
  mkRequest [("image", mkFile "photo.jpg" [Byte.x49; Byte.x50])] (Ret VNone).

Lemma visualize_pose_api_success_witness :
  exists resp w',
    visualize_pose_api toy_libs photo_upload world0 = (Ret resp, w') /\
    status resp = 200 /\
    body resp !! "visualization" = Some (VStr "data:image/jpeg;base64,IP") /\
    fs w' = ∅.
Proof.
  destruct (visualize_pose_api_success toy_libs photo_upload
              (mkFile "photo.jpg" [Byte.x49; Byte.x50]) [Byte.x49; Byte.x50] world0)
    as (resp & w' & E & Hs & _ & Hv & Hfs & _).
  - reflexivity.
  - discriminate.
  - reflexivity.
  - reflexivity.
  - reflexivity.
  - exists resp, w'. repeat split; [exact E|exact Hs|exact Hv|].
    rewrite Hfs. simpl. by rewrite !delete_empty.
Defined.

(** ** Data URLs *)

Lemma has_comma_app (h p : string) :
  is_substring "," h = false ->
  is_substring "," (h +:+ "," +:+ p) = true /\
  after_first_comma (h +:+ "," +:+ p) = p.
Proof.
  induction h as [|c r IH]; intros H.
  - split; [|reflexivity]. simpl. by destruct p.
  - rewrite has_comma_cons in H. apply orb_false_iff in H as [Hc Hr].
    destruct (IH Hr) as [IH1 IH2]. split.
    + change (String c r +:+ "," +:+ p) with (String c (r +:+ "," +:+ p)).
      rewrite has_comma_cons, IH1. apply orb_true_r.
    + simpl. rewrite Hc. exact IH2.
Qed.

(** X18. For a data URL made of a header and a payload, neither holding a
    comma, joined by a comma, what is handed to the base64 decoder is the
    payload: building the URL and taking the payload is the identity. *)
Theorem data_url_payload (header data : string) :
  is_substring "," header = false ->
  is_substring "," data = false ->
  payload (VStr (header +:+ "," +:+ data)) = Ret data.
Proof.
  intros Hh Hd. destruct (has_comma_app header data Hh) as [H1 H2].
  rewrite payload_with_comma by done. rewrite H2. by rewrite before_no_comma.
Qed.

Lemma data_url_payload_witness :
  payload (VStr ("data:image/png;base64" +:+ "," +:+ "iVBORw0KGgo=")) = Ret "iVBORw0KGgo=".
Proof. apply data_url_payload; reflexivity. Defined.

(** ** The command line on a file that is no image *)

(** X19. In CLI mode without [--visualize] and without [--output], an
    existing file the codec cannot read still ends the run normally: the
    only sign of the failure is the printed JSON text, that of the failure
    record "Could not read image from <path>". *)
Theorem cli_failure_is_only_in_json (L : Libs) (app_run : string -> Z -> M unit)
    (args : Args) (image : string) (bs : list Byte.byte) (w : World) :
  arg_mode args = cli ->
  arg_image args = Some image -> image <> "" ->
  truthy (arg_output args) = false ->
  arg_visualize args = false ->
  fs w !! image = Some bs ->
  cv2_imread_data L bs = Ret None ->
  let w1 := printed ("Processing image: " +:+ image) w in
  main L app_run args w
  = (Ret tt,
     printed (json_dumps L (error_dict L ("Could not read image from " +:+ image) w1))
       (tick w1)).
Proof.
  intros Hm Hi Hne Ho Hv Hf Hr w1.
  destruct (main_cli_found L app_run args image w Hm Hi Hne) as (result & E & Hmain).
  - by eexists.
  - by rewrite Ho.
  - cbv zeta in E, Hmain. fold w1 in E, Hmain.
    rewrite extract_keypoints_exact in E. injection E as <-.
    rewrite Hmain, Hv. unfold after_output. rewrite Ho.
    unfold file_result. change (fs w1) with (fs w). by rewrite Hf, Hr.
Qed.

Lemma cli_failure_is_only_in_json_witness :
  main toy_libs toy_run (mkArgs cli (Some "notes.txt") None false 5000 "0.0.0.0")
    notes_world
  = (Ret tt,
     printed "{failure}" (tick (printed "Processing image: notes.txt" notes_world))).
Proof.
  apply (cli_failure_is_only_in_json toy_libs toy_run
           (mkArgs cli (Some "notes.txt") None false 5000 "0.0.0.0")
           "notes.txt" [Byte.x00] notes_world); try reflexivity.
  discriminate.
Defined.

(** ** Batch records are independent of each other *)

(** X20. Each record of a batch answer is determined by its own upload:
    it is what the codec and the model make of that upload's bytes (or the
    failure record naming its temporary file), plus its filename; the other
    uploads of the batch play no part in it. *)
Theorem batch_records_independent (L : Libs) (request : Request) (w w' : World)
    (resp : Response) (results : list PyVal) (i : nat) (r : PyVal) :
  batch_extract_api L request w = (Ret resp, w') ->
  body resp !! "results" = Some (VList results) ->
  results !! i = Some r ->
  exists f now w0,
    attempted (files_getlist "images" (files request)) !! i = Some f /\
    r = VDict (<["filename" := VStr (filename f)]>
                 (decode_result L (cv2_imread_data L (content f))
                    ("Could not read image from " +:+ temp_name L "temp_" now f)
                    w0)).
Proof.
  intros Hrun Hres Hi.
  assert (HF : Forall2 (result_for L)
                 (attempted (files_getlist "images" (files request))) results).
  { unfold batch_extract_api, try_except, bind at 1 in Hrun.
    destruct (negb (files_contains "images" (files request))).
    - injection Hrun as <- _. discriminate.
    - unfold bind at 1 in Hrun.
      destruct (batch_loop L _ [] w) as [[out|e] w1] eqn:E.
      + injection Hrun as <- _. injection Hres as <-.
        destruct (batch_loop_sound L _ _ _ _ _ E) as (new & -> & HF). exact HF.
      + injection Hrun as <- _. discriminate. }
  destruct (Forall2_lookup_r _ _ _ _ _ HF Hi) as (f & Hf & w0 & now & d & Hl & E & ->).
  exists f, now, w0. split; [exact Hf|].
  rewrite extract_keypoints_exact in E. injection E as <-.
  unfold file_result. by rewrite Hl.
Qed.

Lemma batch_records_independent_witness :
  exists f now w0,
    attempted (files_getlist "images" (files toy_batch)) !! 1%nat = Some f /\
    default VNone (toy_batch_results !! 1%nat)
    = VDict (<["filename" := VStr (filename f)]>
               (decode_result toy_libs (cv2_imread_data toy_libs (content f))
                  ("Could not read image from " +:+ temp_name toy_libs "temp_" now f)
                  w0)).
Proof.
  apply (batch_records_independent toy_libs toy_batch world0
           (snd (batch_extract_api toy_libs toy_batch world0))
           toy_batch_response toy_batch_results 1).
  - vm_compute. reflexivity.
  - vm_compute. reflexivity.
  - vm_compute. reflexivity.
Defined.
